(** * vllm/model_executor/model_loader.py: selecting and loading models

    A shallow embedding of [_set_default_torch_dtype],
    [_get_model_architecture] and [get_model], with the module's three
    tables, followed by the properties of the resolution, validation and
    construction pipeline.

    Python values are rendered as follows.
    - [str] is [string], character by character: the character of code [n]
      is the code point [n], for [n] from 0 to 255.  [int] is [Z]; an
      optional value ([None] or a value) is [option].
    - A model class is a constructor of [model_class]; [x in some_list] on
      classes and on dtypes is identity, here decidable equality.
    - The dict [_MODEL_REGISTRY] is an association list in the order of the
      literal, since the error message prints its keys in that order.
    - The only mutable global is torch's default dtype.  A computation is a
      function from the default dtype on entry to an outcome (a value or a
      raised exception), the default dtype on exit, and the list of calls
      made to collaborators, in order.  *)

From Stdlib Require Import String Ascii List ZArith DecimalString Bool Lia.
Import ListNotations.
Open Scope string_scope.

(** ** Data model *)

(** The classes that [from vllm.model_executor.models import *] brings in
    and that the tables below mention. *)
Inductive model_class : Set :=
| AquilaForCausalLM
| BaiChuanForCausalLM
| BaichuanForCausalLM
| BloomForCausalLM
| FalconForCausalLM
| GPT2LMHeadModel
| GPTBigCodeForCausalLM
| GPTJForCausalLM
| GPTNeoXForCausalLM
| InternLMForCausalLM
| LlamaForCausalLM
| MistralForCausalLM
| MptForCausalLM
| OPTForCausalLM
| QWenLMHeadModel.

Scheme Equality for model_class.

(** The floating-point [torch.dtype]s, the values [torch.set_default_dtype]
    accepts. *)
Inductive torch_dtype : Set :=
| float16
| bfloat16
| float32
| float64.

Scheme Equality for torch_dtype.

(** An attribute of a Python object: not there at all, there and [None], or
    there with a value. *)
Inductive attribute (A : Type) : Type :=
| Missing
| IsNone
| Has (a : A).
Arguments Missing {A}.
Arguments IsNone {A}.
Arguments Has {A} a.

(** [transformers.PretrainedConfig], as far as this module reads it. *)
Record PretrainedConfig : Type := {
  architectures : attribute (list string)
}.

(** Modelled from the spec: the class of the value [get_quant_config]
    returns is defined outside this module and is missing here.  The spec
    gives it a minimum compute-capability level and the set of dtypes it
    supports; the code reads them with [get_min_capability()] and
    [get_supported_act_dtypes()]. *)
Record QuantizationConfig : Type := {
  get_min_capability : Z;
  get_supported_act_dtypes : list torch_dtype
}.

(** [vllm.config.ModelConfig], the fields [get_model] reads. *)
Record ModelConfig : Type := {
  hf_config : PretrainedConfig;
  model : string;
  download_dir : option string;
  load_format : string;
  dtype : torch_dtype;
  quantization : option string;
  revision : option string;
  tensorizer_path : option string
}.

(** A positional argument of a model class's constructor.  [ArgQuant None]
    is Python's [None] passed in the [quant_config] position. *)
Inductive ctor_arg : Type :=
| ArgConfig (c : PretrainedConfig)
| ArgQuant (q : option QuantizationConfig).

Inductive device : Set := Cpu | CudaDevice.

Inductive weights : Type :=
| AsConstructed
| Dummy
| Loaded (model : string) (download_dir : option string) (load_format : string)
         (revision tensorizer_path : option string).

(** Modelled from the spec: the model implementations live in
    vllm/model_executor/models, whose files are missing here.  A model is
    an [nn.Module]: it remembers how it was built, [cuda()] moves it to the
    accelerator and returns it, [eval()] leaves training mode and returns
    it; a fresh module is on the CPU and in training mode. *)
Record Model : Type := {
  m_class : model_class;
  m_args : list ctor_arg;
  m_no_init : bool;
  m_param_dtype : torch_dtype;
  m_device : device;
  m_training : bool;
  m_weights : weights
}.

(** Calls that leave this module. *)
Inductive event : Type :=
| EvGetQuantConfig (quantization model : string) (download_dir : option string)
| EvGetDeviceCapability
| EvPrint (line : string)
| EvSetDefaultDtype (d : torch_dtype)
| EvConstruct (cls : model_class) (args : list ctor_arg) (no_init : bool)
| EvCuda
| EvInitializeDummyWeights
| EvLoadWeights (model : string) (download_dir : option string)
                (load_format : string) (revision tensorizer_path : option string)
| EvEval.

(** [ValueError] and [TypeError] are the exceptions this module's own code
    raises; [Propagated] is a failure of a collaborator passing through. *)
Inductive exn : Type :=
| ValueError (msg : string)
| TypeError (msg : string)
| Propagated (what : string).

(** What the collaborators do.  A failure is [Some] reason (or [inl]); the
    module path of a class is part of how Python prints it. *)
Record World : Type := {
  class_module : model_class -> string;
  get_mem_usage : string;
  quant_config_of : string -> string -> option string -> string + QuantizationConfig;
  device_capability : string + (Z * Z);
  init_failure : model_class -> list ctor_arg -> bool -> option string;
  cuda_failure : Model -> option string;
  dummy_weights_failure : Model -> option string;
  load_weights_failure :
    Model -> string -> option string -> string -> option string -> option string ->
    option string
}.

(** ** Computations *)

Inductive outcome (A : Type) : Type :=
| Returns (a : A)
| Raises (e : exn).
Arguments Returns {A} a.
Arguments Raises {A} e.

Record run (A : Type) : Type := Run {
  result : outcome A;
  dtype_after : torch_dtype;
  calls : list event
}.
Arguments Run {A} result dtype_after calls.
Arguments result {A} r.
Arguments dtype_after {A} r.
Arguments calls {A} r.

Definition M (A : Type) : Type := torch_dtype -> run A.

Definition ret {A} (a : A) : M A := fun d => Run (Returns a) d [].

Definition raise {A} (e : exn) : M A := fun d => Run (Raises e) d [].

(** Sequencing: a raise in [m] skips [f]; otherwise [f] starts from the
    default dtype [m] left and its calls follow those of [m]. *)
Definition bind {A B} (m : M A) (f : A -> M B) : M B :=
  fun d =>
    match m d with
    | Run (Returns a) d1 c1 =>
        match f a d1 with
        | Run r d2 c2 => Run r d2 (c1 ++ c2)
        end
    | Run (Raises e) d1 c1 => Run (Raises e) d1 c1
    end.

Notation "x <- m ;; k" := (bind m (fun x => k))
  (at level 61, m at next level, right associativity).
Notation "m ;;; k" := (bind m (fun _ => k))
  (at level 61, right associativity).

Definition emit (e : event) : M unit := fun d => Run (Returns tt) d [e].

(** A collaborator step that either fails with a reason or goes on. *)
Definition may_fail (failure : option string) : M unit :=
  match failure with
  | Some why => raise (Propagated why)
  | None => ret tt
  end.

Definition when (b : bool) (m : M unit) : M unit := if b then m else ret tt.

(** [torch.get_default_dtype()] and [torch.set_default_dtype(d)]. *)
Definition get_default_dtype : M torch_dtype := fun d => Run (Returns d) d [].

Definition set_default_dtype (d : torch_dtype) : M unit :=
  fun _ => Run (Returns tt) d [EvSetDefaultDtype d].

(** ** Printing Python values *)

Definition dquote : ascii := ascii_of_nat 34.
Definition squote : ascii := "'"%char.
Definition backslash : ascii := "\"%char.

Fixpoint contains (c : ascii) (s : string) : bool :=
  match s with
  | EmptyString => false
  | String c' s' => Ascii.eqb c c' || contains c s'
  end.

Definition hex_digit (n : nat) : ascii :=
  nth n (list_ascii_of_string "0123456789abcdef") "0"%char.

(** A [str] is modelled by a [string] whose characters are its code points,
    so the model holds the strings of code points 0 to 255.  Among these,
    Python's [str.isprintable] is false for 0 to 31, for 127 to 160 and for
    173 (the soft hyphen). *)
Definition printable (n : nat) : bool :=
  ((32 <=? n)%nat && (n <? 127)%nat) || ((161 <=? n)%nat && negb (n =? 173)%nat).

(** [repr] of a [str]: single quotes unless the text has a single quote and
    no double quote; the quote and the backslash are escaped, tab, newline
    and return are written [\t], [\n], [\r], every other character that is
    not printable is written [\xhh] with two lowercase hex digits, and a
    printable character is kept. *)
Definition repr_char (q c : ascii) : string :=
  if Ascii.eqb c q || Ascii.eqb c backslash then String backslash (String c "")
  else if Ascii.eqb c "009" then "\t"
  else if Ascii.eqb c "010" then "\n"
  else if Ascii.eqb c "013" then "\r"
  else
    let n := nat_of_ascii c in
    if printable n
    then String c ""
    else "\x" ++ String (hex_digit (n / 16)) (String (hex_digit (n mod 16)) "").

Fixpoint repr_chars (q : ascii) (s : string) : string :=
  match s with
  | EmptyString => ""
  | String c s' => repr_char q c ++ repr_chars q s'
  end.

Definition repr_str (s : string) : string :=
  let q := if contains squote s && negb (contains dquote s) then dquote else squote in
  String q (repr_chars q s ++ String q "").

(** [", ".join(items)]. *)
Fixpoint join_comma (items : list string) : string :=
  match items with
  | [] => ""
  | [x] => x
  | x :: rest => x ++ ", " ++ join_comma rest
  end.

(** [repr] of a list whose items print with [f]. *)
Definition repr_list {A} (f : A -> string) (l : list A) : string :=
  "[" ++ join_comma (map f l) ++ "]".

Definition str_int (z : Z) : string := NilZero.string_of_int (Z.to_int z).

Definition str_dtype (d : torch_dtype) : string :=
  match d with
  | float16 => "torch.float16"
  | bfloat16 => "torch.bfloat16"
  | float32 => "torch.float32"
  | float64 => "torch.float64"
  end.

Definition class_name (cls : model_class) : string :=
  match cls with
  | AquilaForCausalLM => "AquilaForCausalLM"
  | BaiChuanForCausalLM => "BaiChuanForCausalLM"
  | BaichuanForCausalLM => "BaichuanForCausalLM"
  | BloomForCausalLM => "BloomForCausalLM"
  | FalconForCausalLM => "FalconForCausalLM"
  | GPT2LMHeadModel => "GPT2LMHeadModel"
  | GPTBigCodeForCausalLM => "GPTBigCodeForCausalLM"
  | GPTJForCausalLM => "GPTJForCausalLM"
  | GPTNeoXForCausalLM => "GPTNeoXForCausalLM"
  | InternLMForCausalLM => "InternLMForCausalLM"
  | LlamaForCausalLM => "LlamaForCausalLM"
  | MistralForCausalLM => "MistralForCausalLM"
  | MptForCausalLM => "MptForCausalLM"
  | OPTForCausalLM => "OPTForCausalLM"
  | QWenLMHeadModel => "QWenLMHeadModel"
  end.

(** [str] of a class: [<class 'package.module.Name'>]. *)
Definition str_class (w : World) (cls : model_class) : string :=
  "<class '" ++ class_module w cls ++ "." ++ class_name cls ++ "'>".

(** ** The module's tables *)

Definition _MODEL_REGISTRY : list (string * model_class) := [
  ("AquilaModel", AquilaForCausalLM);
  ("AquilaForCausalLM", AquilaForCausalLM);
  ("BaiChuanForCausalLM", BaiChuanForCausalLM);
  ("BaichuanForCausalLM", BaichuanForCausalLM);
  ("BloomForCausalLM", BloomForCausalLM);
  ("FalconForCausalLM", FalconForCausalLM);
  ("GPT2LMHeadModel", GPT2LMHeadModel);
  ("GPTBigCodeForCausalLM", GPTBigCodeForCausalLM);
  ("GPTJForCausalLM", GPTJForCausalLM);
  ("GPTNeoXForCausalLM", GPTNeoXForCausalLM);
  ("InternLMForCausalLM", InternLMForCausalLM);
  ("LlamaForCausalLM", LlamaForCausalLM);
  ("LLaMAForCausalLM", LlamaForCausalLM);
  ("MistralForCausalLM", MistralForCausalLM);
  ("MptForCausalLM", MptForCausalLM);
  ("MPTForCausalLM", MptForCausalLM);
  ("OPTForCausalLM", OPTForCausalLM);
  ("QWenLMHeadModel", QWenLMHeadModel);
  ("RWForCausalLM", FalconForCausalLM)
].

Definition _MODEL_CLASSES_SUPPORT_QUANTIZATION : list model_class := [
  LlamaForCausalLM;
  MistralForCausalLM
].

Definition _MODEL_CLASSES_SUPPORT_TENSORIZER : list model_class := [
  MistralForCausalLM
].

(** [d.keys()] and [d.get(k)] of a dict given as its items. *)
Definition keys {V} (d : list (string * V)) : list string := map fst d.

Fixpoint dict_get {V} (d : list (string * V)) (k : string) : option V :=
  match d with
  | [] => None
  | (k', v) :: rest => if String.eqb k k' then Some v else dict_get rest k
  end.

Definition class_in (cls : model_class) (l : list model_class) : bool :=
  existsb (model_class_beq cls) l.

Definition dtype_in (d : torch_dtype) (l : list torch_dtype) : bool :=
  existsb (torch_dtype_beq d) l.

(** ** Collaborators *)

(** [getattr(obj, name, default)]: the default only when the attribute is
    not there.  [None] is Python's [None]. *)
Definition getattr {A} (a : attribute A) (default : A) : option A :=
  match a with
  | Missing => Some default
  | IsNone => None
  | Has v => Some v
  end.

Definition print (line : string) : M unit := emit (EvPrint line).

(** Modelled from the spec: [get_quant_config] lives in
    vllm/model_executor/weight_utils, whose file is missing here.  Given
    the scheme name, the checkpoint location and the download directory it
    returns a QuantizationConfig, or fails. *)
Definition get_quant_config (w : World) (quantization model : string)
    (download_dir : option string) : M QuantizationConfig :=
  emit (EvGetQuantConfig quantization model download_dir);;;
  match quant_config_of w quantization model download_dir with
  | inl why => raise (Propagated why)
  | inr quant_config => ret quant_config
  end.

(** [torch.cuda.get_device_capability()]: a (major, minor) pair. *)
Definition get_device_capability (w : World) : M (Z * Z) :=
  emit EvGetDeviceCapability;;;
  match device_capability w with
  | inl why => raise (Propagated why)
  | inr capability => ret capability
  end.

(** Calling a model class (or a [partial] of it that fixes [args]).  The
    parameters of a new module take the default dtype of the moment.
    [no_init] says the call is made inside [no_init_or_tensor]. *)
Definition construct (w : World) (cls : model_class) (args : list ctor_arg)
    (no_init : bool) : M Model :=
  emit (EvConstruct cls args no_init);;;
  may_fail (init_failure w cls args no_init);;;
  d <- get_default_dtype;;
  ret {| m_class := cls; m_args := args; m_no_init := no_init;
         m_param_dtype := d; m_device := Cpu; m_training := true;
         m_weights := AsConstructed |}.

(** [model.cuda()]. *)
Definition cuda (w : World) (m : Model) : M Model :=
  emit EvCuda;;;
  may_fail (cuda_failure w m);;;
  ret {| m_class := m_class m; m_args := m_args m; m_no_init := m_no_init m;
         m_param_dtype := m_param_dtype m; m_device := CudaDevice;
         m_training := m_training m; m_weights := m_weights m |}.

(** Modelled from the spec: [initialize_dummy_weights] lives in
    vllm/model_executor/weight_utils, whose file is missing here.  It
    assigns synthetic values to every weight tensor in place; the model it
    returns here is the same object after the assignment. *)
Definition initialize_dummy_weights (w : World) (m : Model) : M Model :=
  emit EvInitializeDummyWeights;;;
  may_fail (dummy_weights_failure w m);;;
  ret {| m_class := m_class m; m_args := m_args m; m_no_init := m_no_init m;
         m_param_dtype := m_param_dtype m; m_device := m_device m;
         m_training := m_training m; m_weights := Dummy |}.

(** Modelled from the spec: [model.load_weights(...)] is the implementation's
    own weight-loading routine, in place as well. *)
Definition load_weights (w : World) (m : Model) (model : string)
    (download_dir : option string) (load_format : string)
    (revision tensorizer_path : option string) : M Model :=
  emit (EvLoadWeights model download_dir load_format revision tensorizer_path);;;
  may_fail (load_weights_failure w m model download_dir load_format revision
              tensorizer_path);;;
  ret {| m_class := m_class m; m_args := m_args m; m_no_init := m_no_init m;
         m_param_dtype := m_param_dtype m; m_device := m_device m;
         m_training := m_training m;
         m_weights := Loaded model download_dir load_format revision
                        tensorizer_path |}.

(** [model.eval()]. *)
Definition eval (m : Model) : M Model :=
  emit EvEval;;;
  ret {| m_class := m_class m; m_args := m_args m; m_no_init := m_no_init m;
         m_param_dtype := m_param_dtype m; m_device := m_device m;
         m_training := false; m_weights := m_weights m |}.

(** ** The messages of the module's [ValueError]s *)

Definition architectures_message (architectures : list string) : string :=
  "Model architectures " ++ repr_list repr_str architectures
  ++ " are not supported for now. "
  ++ "Supported architectures: " ++ repr_list repr_str (keys _MODEL_REGISTRY).

Definition tensorizer_message (w : World) (cls : model_class) : string :=
  "Tensorizer is not supported for " ++ str_class w cls ++ ".".

Definition quantization_message (w : World) (cls : model_class) : string :=
  "Quantization is not supported for " ++ str_class w cls ++ ".".

Definition capability_message (quantization : string) (minimum capability : Z)
    : string :=
  "The quantization method " ++ quantization ++ " is not "
  ++ "supported for the current GPU. "
  ++ "Minimum capability: " ++ str_int minimum ++ ". "
  ++ "Current capability: " ++ str_int capability ++ ".".

Definition dtype_message (d : torch_dtype) (quantization : string)
    (supported_dtypes : list torch_dtype) : string :=
  str_dtype d ++ " is not supported for quantization "
  ++ "method " ++ quantization ++ ". Supported dtypes: "
  ++ repr_list str_dtype supported_dtypes.

(** ** The module's functions *)

(** A function decorated with [contextlib.contextmanager] whose body has one
    [yield] and no [try] around it.  [with g: body] runs the generator up to
    the [yield], then the body.  When the body finishes, the generator is
    resumed and runs to its end.  When the body raises, the exception is
    thrown into the generator at the [yield]; nothing there catches it, so
    it leaves the generator at once and the statements after the [yield] are
    not run.  That is [bind]: [yield_body] stands at the [yield]. *)
Definition _set_default_torch_dtype {A} (dtype : torch_dtype) (yield_body : M A)
    : M A :=
  old_dtype <- get_default_dtype;;
  set_default_dtype dtype;;;
  r <- yield_body;;
  set_default_dtype old_dtype;;;
  ret r.

(** The [for arch in architectures] loop; [otherwise] is what follows it. *)
Fixpoint for_arch (architectures : list string) (otherwise : M model_class)
    : M model_class :=
  match architectures with
  | [] => otherwise
  | arch :: rest =>
      match dict_get _MODEL_REGISTRY arch with
      | Some cls => ret cls
      | None => for_arch rest otherwise
      end
  end.

Definition _get_model_architecture (config : PretrainedConfig) : M model_class :=
  match getattr (architectures config) [] with
  | None => raise (TypeError "'NoneType' object is not iterable")
  | Some architectures =>
      for_arch architectures
        (raise (ValueError (architectures_message architectures)))
  end.

(** Lines 78 to 99 of [get_model]: the value of [quant_config]. *)
Definition get_model_quant_config (w : World) (model_config : ModelConfig)
    (cls : model_class) : M (option QuantizationConfig) :=
  match quantization model_config with
  | None => ret None
  | Some scheme =>
      when (negb (class_in cls _MODEL_CLASSES_SUPPORT_QUANTIZATION))
        (raise (ValueError (quantization_message w cls)));;;
      quant_config <- get_quant_config w scheme (model model_config)
                        (download_dir model_config);;
      capability <- get_device_capability w;;
      let capability := (fst capability * 10 + snd capability)%Z in
      when (capability <? get_min_capability quant_config)%Z
        (raise (ValueError (capability_message scheme
                              (get_min_capability quant_config) capability)));;;
      let supported_dtypes := get_supported_act_dtypes quant_config in
      when (negb (dtype_in (dtype model_config) supported_dtypes))
        (raise (ValueError (dtype_message (dtype model_config) scheme
                              supported_dtypes)));;;
      ret (Some quant_config)
  end.

(** Lines 103 to 125 of [get_model]: the body of the [with] statement. *)
Definition get_model_with_body (w : World) (model_config : ModelConfig)
    (cls : model_class) (quant_config : option QuantizationConfig) : M Model :=
  let model_func :=
    if class_in cls _MODEL_CLASSES_SUPPORT_QUANTIZATION
    then construct w cls [ArgConfig (hf_config model_config); ArgQuant quant_config]
    else construct w cls [ArgConfig (hf_config model_config)] in
  m <- (if load_format model_config =? "tensorizer"
        then model_func true
        else model_func false);;
  if load_format model_config =? "dummy"
  then
    m <- cuda w m;;
    initialize_dummy_weights w m
  else
    m <- load_weights w m (model model_config) (download_dir model_config)
           (load_format model_config) (revision model_config)
           (tensorizer_path model_config);;
    cuda w m.

(** [get_model], lines 71 to 126.  The branch on [quantization] and the
    body of the [with] statement are the two definitions above; the rest is
    in place, in the order of the source.  [cls] is [model_class]. *)
Definition get_model (w : World) (model_config : ModelConfig) : M Model :=
  cls <- _get_model_architecture (hf_config model_config);;
  when ((load_format model_config =? "tensorizer")
        && negb (class_in cls _MODEL_CLASSES_SUPPORT_TENSORIZER))
    (raise (ValueError (tensorizer_message w cls)));;;
  quant_config <- get_model_quant_config w model_config cls;;
  print ("Memory usage before model creation: " ++ get_mem_usage w);;;
  m <- _set_default_torch_dtype (dtype model_config)
         (get_model_with_body w model_config cls quant_config);;
  eval m.

(** Lines 101 to 126 of [get_model]: creating the model under the dtype
    guard, loading its weights and finishing. *)
Definition get_model_create (w : World) (model_config : ModelConfig)
    (cls : model_class) (quant_config : option QuantizationConfig) : M Model :=
  print ("Memory usage before model creation: " ++ get_mem_usage w);;;
  m <- _set_default_torch_dtype (dtype model_config)
         (get_model_with_body w model_config cls quant_config);;
  eval m.

(** What [get_model] does once the class is known: its lines 74 to 126.
    [get_model_resolved] below shows that [get_model] is resolution followed
    by this. *)
Definition get_model_from (w : World) (model_config : ModelConfig)
    (cls : model_class) : M Model :=
  when ((load_format model_config =? "tensorizer")
        && negb (class_in cls _MODEL_CLASSES_SUPPORT_TENSORIZER))
    (raise (ValueError (tensorizer_message w cls)));;;
  quant_config <- get_model_quant_config w model_config cls;;
  get_model_create w model_config cls quant_config.

(** ** Sample worlds and configurations *)

(** Where the classes would be defined, one module per family. *)
Definition sample_module (cls : model_class) : string :=
  "vllm.model_executor.models." ++
  match cls with
  | AquilaForCausalLM => "aquila"
  | BaiChuanForCausalLM | BaichuanForCausalLM => "baichuan"
  | BloomForCausalLM => "bloom"
  | FalconForCausalLM => "falcon"
  | GPT2LMHeadModel => "gpt2"
  | GPTBigCodeForCausalLM => "gpt_bigcode"
  | GPTJForCausalLM => "gpt_j"
  | GPTNeoXForCausalLM => "gpt_neox"
  | InternLMForCausalLM => "internlm"
  | LlamaForCausalLM => "llama"
  | MistralForCausalLM => "mistral"
  | MptForCausalLM => "mpt"
  | OPTForCausalLM => "opt"
  | QWenLMHeadModel => "qwen"
  end.

(** A scheme that needs capability 80 and supports float16 only. *)
Definition sample_quant_config : QuantizationConfig :=
  {| get_min_capability := 80; get_supported_act_dtypes := [float16] |}.

(** No collaborator fails; the accelerator reports [capability]. *)
Definition calm_world (capability : Z * Z) : World :=
  {| class_module := sample_module;
     get_mem_usage := "CPU: 0MiB";
     quant_config_of := fun _ _ _ => inr sample_quant_config;
     device_capability := inr capability;
     init_failure := fun _ _ _ => None;
     cuda_failure := fun _ => None;
     dummy_weights_failure := fun _ => None;
     load_weights_failure := fun _ _ _ _ _ _ => None |}.

(** As [calm_world (8, 0)], but the checkpoint cannot be read. *)
Definition missing_checkpoint_world : World :=
  {| class_module := sample_module;
     get_mem_usage := "CPU: 0MiB";
     quant_config_of := fun _ _ _ => inr sample_quant_config;
     device_capability := inr (8, 0)%Z;
     init_failure := fun _ _ _ => None;
     cuda_failure := fun _ => None;
     dummy_weights_failure := fun _ => None;
     load_weights_failure := fun _ _ _ _ _ _ => Some "checkpoint not found" |}.

(** As [calm_world (8, 0)], but the scheme's file is not in the checkpoint. *)
Definition no_scheme_file_world : World :=
  {| class_module := sample_module;
     get_mem_usage := "CPU: 0MiB";
     quant_config_of := fun _ _ _ => inl "quant_config.json not found";
     device_capability := inr (8, 0)%Z;
     init_failure := fun _ _ _ => None;
     cuda_failure := fun _ => None;
     dummy_weights_failure := fun _ => None;
     load_weights_failure := fun _ _ _ _ _ _ => None |}.

(** As [calm_world], but there is no accelerator to ask. *)
Definition no_accelerator_world : World :=
  {| class_module := sample_module;
     get_mem_usage := "CPU: 0MiB";
     quant_config_of := fun _ _ _ => inr sample_quant_config;
     device_capability := inl "no CUDA device";
     init_failure := fun _ _ _ => None;
     cuda_failure := fun _ => None;
     dummy_weights_failure := fun _ => None;
     load_weights_failure := fun _ _ _ _ _ _ => None |}.

Definition sample_hf_config (candidates : list string) : PretrainedConfig :=
  {| architectures := Has candidates |}.

Definition sample_config (candidates : list string) (format : string)
    (d : torch_dtype) (scheme : option string) : ModelConfig :=
  {| hf_config := sample_hf_config candidates;
     model := "org/model";
     download_dir := None;
     load_format := format;
     dtype := d;
     quantization := scheme;
     revision := None;
     tensorizer_path := None |}.

(** ** The runs of the quantization gate

    Every way lines 78 to 99 can go, with what decides it.  [two_queries] are
    the calls made once the class is known to support quantization. *)

Definition capability_level (capability : Z * Z) : Z :=
  (fst capability * 10 + snd capability)%Z.

Definition two_queries (cfg : ModelConfig) (scheme : string) : list event :=
  [EvGetQuantConfig scheme (model cfg) (download_dir cfg); EvGetDeviceCapability].

Inductive quant_config_run (w : World) (cfg : ModelConfig) (cls : model_class)
    (d : torch_dtype) : run (option QuantizationConfig) -> Prop :=
| NotRequested :
    quantization cfg = None ->
    quant_config_run w cfg cls d (Run (Returns None) d [])
| ClassUnsupported scheme :
    quantization cfg = Some scheme ->
    ~ In cls _MODEL_CLASSES_SUPPORT_QUANTIZATION ->
    quant_config_run w cfg cls d
      (Run (Raises (ValueError (quantization_message w cls))) d [])
| LoaderFailed scheme why :
    quantization cfg = Some scheme ->
    In cls _MODEL_CLASSES_SUPPORT_QUANTIZATION ->
    quant_config_of w scheme (model cfg) (download_dir cfg) = inl why ->
    quant_config_run w cfg cls d
      (Run (Raises (Propagated why)) d
         [EvGetQuantConfig scheme (model cfg) (download_dir cfg)])
| QueryFailed scheme qc why :
    quantization cfg = Some scheme ->
    In cls _MODEL_CLASSES_SUPPORT_QUANTIZATION ->
    quant_config_of w scheme (model cfg) (download_dir cfg) = inr qc ->
    device_capability w = inl why ->
    quant_config_run w cfg cls d
      (Run (Raises (Propagated why)) d (two_queries cfg scheme))
| AcceleratorBelow scheme qc capability :
    quantization cfg = Some scheme ->
    In cls _MODEL_CLASSES_SUPPORT_QUANTIZATION ->
    quant_config_of w scheme (model cfg) (download_dir cfg) = inr qc ->
    device_capability w = inr capability ->
    (capability_level capability < get_min_capability qc)%Z ->
    quant_config_run w cfg cls d
      (Run (Raises (ValueError
              (capability_message scheme (get_min_capability qc)
                 (capability_level capability))))
         d (two_queries cfg scheme))
| DtypeUnsupported scheme qc capability :
    quantization cfg = Some scheme ->
    In cls _MODEL_CLASSES_SUPPORT_QUANTIZATION ->
    quant_config_of w scheme (model cfg) (download_dir cfg) = inr qc ->
    device_capability w = inr capability ->
    (get_min_capability qc <= capability_level capability)%Z ->
    ~ In (dtype cfg) (get_supported_act_dtypes qc) ->
    quant_config_run w cfg cls d
      (Run (Raises (ValueError
              (dtype_message (dtype cfg) scheme (get_supported_act_dtypes qc))))
         d (two_queries cfg scheme))
| Validated scheme qc capability :
    quantization cfg = Some scheme ->
    In cls _MODEL_CLASSES_SUPPORT_QUANTIZATION ->
    quant_config_of w scheme (model cfg) (download_dir cfg) = inr qc ->
    device_capability w = inr capability ->
    (get_min_capability qc <= capability_level capability)%Z ->
    In (dtype cfg) (get_supported_act_dtypes qc) ->
    quant_config_run w cfg cls d
      (Run (Returns (Some qc)) d (two_queries cfg scheme)).

(** The arguments [model_func] fixes (lines 104 to 107). *)
Definition model_func_args (cfg : ModelConfig) (cls : model_class)
    (quant_config : option QuantizationConfig) : list ctor_arg :=
  if class_in cls _MODEL_CLASSES_SUPPORT_QUANTIZATION
  then [ArgConfig (hf_config cfg); ArgQuant quant_config]
  else [ArgConfig (hf_config cfg)].

(** The calls with which lines 101 to 112 always begin. *)
Definition creation_calls (w : World) (cfg : ModelConfig) (cls : model_class)
    (quant_config : option QuantizationConfig) : list event :=
  [EvPrint ("Memory usage before model creation: " ++ get_mem_usage w);
   EvSetDefaultDtype (dtype cfg);
   EvConstruct cls (model_func_args cfg cls quant_config)
     (load_format cfg =? "tensorizer")].

Definition is_construct (e : event) : bool :=
  match e with
  | EvConstruct _ _ _ => true
  | _ => false
  end.

Definition is_set_default_dtype (e : event) : bool :=
  match e with
  | EvSetDefaultDtype _ => true
  | _ => false
  end.

(** ** What a load is expected to do

    The calls of a load that nothing stops, and the model it hands back,
    written out from lines 79 to 126 so that runs of [get_model] can be
    compared with them. *)

(** The configuration with another [hf_config] and every other field kept. *)
Definition with_hf_config (cfg : ModelConfig) (hf : PretrainedConfig)
    : ModelConfig :=
  {| hf_config := hf;
     model := model cfg;
     download_dir := download_dir cfg;
     load_format := load_format cfg;
     dtype := dtype cfg;
     quantization := quantization cfg;
     revision := revision cfg;
     tensorizer_path := tensorizer_path cfg |}.

(** The queries of lines 83 and 86, made when a scheme is requested. *)
Definition validation_calls (cfg : ModelConfig) : list event :=
  match quantization cfg with
  | Some scheme => two_queries cfg scheme
  | None => []
  end.

(** What the loader answers for the requested scheme, if one is requested
    and the loader answers. *)
Definition loader_answer (w : World) (cfg : ModelConfig)
    : option QuantizationConfig :=
  match quantization cfg with
  | None => None
  | Some scheme =>
      match quant_config_of w scheme (model cfg) (download_dir cfg) with
      | inr qc => Some qc
      | inl _ => None
      end
  end.

(** The calls of lines 115 to 125, by load format. *)
Definition weight_calls (cfg : ModelConfig) : list event :=
  if load_format cfg =? "dummy"
  then [EvCuda; EvInitializeDummyWeights]
  else [EvLoadWeights (model cfg) (download_dir cfg) (load_format cfg)
          (revision cfg) (tensorizer_path cfg);
        EvCuda].

Definition planned_calls (w : World) (cfg : ModelConfig) (cls : model_class)
    (d : torch_dtype) : list event :=
  (validation_calls cfg
   ++ creation_calls w cfg cls (loader_answer w cfg)
   ++ weight_calls cfg
   ++ [EvSetDefaultDtype d; EvEval])%list.

Definition loaded_model (cfg : ModelConfig) (cls : model_class)
    (quant_config : option QuantizationConfig) : Model :=
  {| m_class := cls;
     m_args := model_func_args cfg cls quant_config;
     m_no_init := load_format cfg =? "tensorizer";
     m_param_dtype := dtype cfg;
     m_device := CudaDevice;
     m_training := false;
     m_weights :=
       if load_format cfg =? "dummy"
       then Dummy
       else Loaded (model cfg) (download_dir cfg) (load_format cfg)
              (revision cfg) (tensorizer_path cfg) |}.

(** The conditions lines 79 to 99 check, as a proposition. *)
Definition quantization_accepted (w : World) (cfg : ModelConfig)
    (cls : model_class) : Prop :=
  match quantization cfg with
  | None => True
  | Some scheme =>
      In cls _MODEL_CLASSES_SUPPORT_QUANTIZATION /\
      exists qc capability,
        quant_config_of w scheme (model cfg) (download_dir cfg) = inr qc /\
        device_capability w = inr capability /\
        (get_min_capability qc <= capability_level capability)%Z /\
        In (dtype cfg) (get_supported_act_dtypes qc)
  end.

(** * Properties *)

(** ** Membership tests and the registry *)

Lemma class_in_In (cls : model_class) (l : list model_class) :
  class_in cls l = true <-> In cls l.
Proof.
  unfold class_in. rewrite existsb_exists. split.
  - intros [x [Hx Heq]]. apply internal_model_class_dec_bl in Heq. now subst.
  - intros H. exists cls. split; [assumption|].
    now apply internal_model_class_dec_lb.
Qed.

Lemma class_in_not_In (cls : model_class) (l : list model_class) :
  class_in cls l = false <-> ~ In cls l.
Proof.
  rewrite <- class_in_In. destruct (class_in cls l); split; congruence.
Qed.

Lemma dtype_in_In (d : torch_dtype) (l : list torch_dtype) :
  dtype_in d l = true <-> In d l.
Proof.
  unfold dtype_in. rewrite existsb_exists. split.
  - intros [x [Hx Heq]]. apply internal_torch_dtype_dec_bl in Heq. now subst.
  - intros H. exists d. split; [assumption|].
    now apply internal_torch_dtype_dec_lb.
Qed.

Lemma dtype_in_not_In (d : torch_dtype) (l : list torch_dtype) :
  dtype_in d l = false <-> ~ In d l.
Proof.
  rewrite <- dtype_in_In. destruct (dtype_in d l); split; congruence.
Qed.

Lemma dict_get_not_key {V} (dict : list (string * V)) (k : string) :
  ~ In k (keys dict) -> dict_get dict k = None.
Proof.
  induction dict as [|[k' v] rest IH]; simpl; intros H; [reflexivity|].
  destruct (String.eqb_spec k k') as [->|Hne].
  - exfalso. apply H. now left.
  - apply IH. intros Hin. apply H. now right.
Qed.

Lemma dict_get_item {V} (dict : list (string * V)) (k : string) (v : V) :
  NoDup (keys dict) -> In (k, v) dict -> dict_get dict k = Some v.
Proof.
  induction dict as [|[k' v'] rest IH]; simpl; intros Hnd Hin; [contradiction|].
  inversion Hnd as [|? ? Hnotin Hnd']; subst.
  destruct Hin as [Heq|Hin].
  - inversion Heq; subst. now rewrite String.eqb_refl.
  - destruct (String.eqb_spec k k') as [->|Hne].
    + exfalso. apply Hnotin. unfold keys.
      change k' with (fst (k', v)). now apply in_map.
    + now apply IH.
Qed.

(** No key is written twice in the literal, so the first item found for a
    key is the dict's value for it. *)
Lemma registry_keys_NoDup : NoDup (keys _MODEL_REGISTRY).
Proof.
  unfold keys, _MODEL_REGISTRY; simpl.
  repeat (constructor; [simpl; intuition discriminate|]).
  constructor.
Qed.

(** Printing follows Python on names that are not plain ASCII: the
    no-break space (160) and the soft hyphen (173) are escaped, an accented
    letter (233) is kept, and a name with a single quote is put in double
    quotes. *)
Lemma repr_list_escapes :
  repr_list repr_str
    ["OPT" ++ String (ascii_of_nat 160) "ForCausalLM";
     String (ascii_of_nat 173) (String (ascii_of_nat 233) "");
     "it's"]
  = "['OPT\xa0ForCausalLM', '\xad" ++ String (ascii_of_nat 233) "', "
    ++ String dquote "it's" ++ String dquote "]".
Proof. reflexivity. Qed.

(** ** Running computations *)

Lemma for_arch_found (before after : list string) (arch : string)
    (cls : model_class) (otherwise : M model_class) :
  (forall a, In a before -> ~ In a (keys _MODEL_REGISTRY)) ->
  In (arch, cls) _MODEL_REGISTRY ->
  for_arch (before ++ arch :: after) otherwise = ret cls.
Proof.
  intros Hbefore Hin.
  induction before as [|a before IH]; cbn [for_arch app].
  - now rewrite (dict_get_item _ _ _ registry_keys_NoDup Hin).
  - rewrite dict_get_not_key by (apply Hbefore; now left).
    apply IH. intros a' Ha'. apply Hbefore. now right.
Qed.

Lemma for_arch_none (archs : list string) (otherwise : M model_class) :
  (forall a, In a archs -> ~ In a (keys _MODEL_REGISTRY)) ->
  for_arch archs otherwise = otherwise.
Proof.
  induction archs as [|a archs IH]; cbn [for_arch]; intros H; [reflexivity|].
  rewrite dict_get_not_key by (apply H; now left).
  apply IH. intros a' Ha'. apply H. now right.
Qed.

(** The loop either returns a class or falls through to what follows it. *)
Lemma for_arch_cases (archs : list string) (otherwise : M model_class) :
  (exists cls, for_arch archs otherwise = ret cls) \/
  for_arch archs otherwise = otherwise.
Proof.
  induction archs as [|a archs IH]; cbn [for_arch]; [now right|].
  destruct (dict_get _MODEL_REGISTRY a) as [cls|]; [left; now exists cls|exact IH].
Qed.

(** Resolution reads nothing but its argument: it leaves the default dtype
    alone and calls no collaborator. *)
Lemma get_model_architecture_pure (config : PretrainedConfig) (d : torch_dtype) :
  dtype_after (_get_model_architecture config d) = d /\
  calls (_get_model_architecture config d) = [].
Proof.
  unfold _get_model_architecture.
  destruct (getattr (architectures config) []) as [archs|]; [|now split].
  destruct (for_arch_cases archs
              (raise (ValueError (architectures_message archs))))
    as [[cls ->]| ->]; now split.
Qed.

Lemma get_model_architecture_run (config : PretrainedConfig) (d : torch_dtype) :
  _get_model_architecture config d =
  Run (result (_get_model_architecture config d)) d [].
Proof.
  destruct (get_model_architecture_pure config d) as [Hd Hc].
  destruct (_get_model_architecture config d) as [r d' c]; simpl in *.
  now subst.
Qed.

(** A [ValueError] of resolution carries the message about architectures. *)
Lemma get_model_architecture_error (config : PretrainedConfig) (d : torch_dtype)
    (msg : string) :
  result (_get_model_architecture config d) = Raises (ValueError msg) ->
  exists archs, msg = architectures_message archs.
Proof.
  unfold _get_model_architecture.
  destruct (getattr (architectures config) []) as [archs|]; [|discriminate].
  destruct (for_arch_cases archs
              (raise (ValueError (architectures_message archs))))
    as [[cls ->]| ->]; simpl; intros H; [discriminate|].
  exists archs. congruence.
Qed.

(** Unfolding one [bind] at a time. *)
Lemma bind_run {A B} (m : M A) (f : A -> M B) (d d' : torch_dtype) (a : A)
    (c : list event) :
  m d = Run (Returns a) d' c ->
  bind m f d = Run (result (f a d')) (dtype_after (f a d')) (c ++ calls (f a d')).
Proof. intros H. unfold bind. rewrite H. now destruct (f a d'). Qed.

Lemma bind_raises {A B} (m : M A) (f : A -> M B) (d d' : torch_dtype) (e : exn)
    (c : list event) :
  m d = Run (Raises e) d' c ->
  bind m f d = Run (Raises e) d' c.
Proof. intros H. unfold bind. now rewrite H. Qed.

Lemma run_eta {A} (r : run A) : Run (result r) (dtype_after r) (calls r) = r.
Proof. now destruct r. Qed.

Lemma bind_when_false {B} (m : M unit) (f : unit -> M B) (d : torch_dtype) :
  bind (when false m) f d = f tt d.
Proof. unfold bind, when, ret. now destruct (f tt d). Qed.

Lemma get_model_resolved (w : World) (cfg : ModelConfig) (d : torch_dtype)
    (cls : model_class) :
  result (_get_model_architecture (hf_config cfg) d) = Returns cls ->
  get_model w cfg d = get_model_from w cfg cls d.
Proof.
  intros H. unfold get_model.
  rewrite (bind_run _ _ d d cls []).
  - simpl. apply run_eta.
  - rewrite get_model_architecture_run. now rewrite H.
Qed.

Lemma get_model_unresolved (w : World) (cfg : ModelConfig) (d : torch_dtype)
    (e : exn) :
  result (_get_model_architecture (hf_config cfg) d) = Raises e ->
  get_model w cfg d = Run (Raises e) d [].
Proof.
  intros H. unfold get_model.
  apply bind_raises. rewrite get_model_architecture_run. now rewrite H.
Qed.

(** ** Architecture resolution *)

(** C2.  For a list of candidate names, resolution returns the class the
    registry maps the first registered candidate to: when the candidates
    before [arch] are not keys of the registry and [arch] is a key mapped to
    [cls], the result is [cls].  When no candidate is a key, it raises the
    [ValueError] whose message prints the candidates, as Python's [repr]
    of the list, and then every key of the registry.  Keys are compared as
    whole strings.  A name is any [string], that is any text of code points
    0 to 255. *)
Theorem get_model_architecture_first_registered :
  forall (archs : list string) (d : torch_dtype),
    (forall (before : list string) (arch : string) (after : list string)
            (cls : model_class),
        archs = (before ++ arch :: after)%list ->
        (forall a, In a before -> ~ In a (keys _MODEL_REGISTRY)) ->
        In (arch, cls) _MODEL_REGISTRY ->
        _get_model_architecture {| architectures := Has archs |} d
        = Run (Returns cls) d [])
    /\
    ((forall a, In a archs -> ~ In a (keys _MODEL_REGISTRY)) ->
        _get_model_architecture {| architectures := Has archs |} d
        = Run (Raises (ValueError
            ("Model architectures " ++ repr_list repr_str archs
             ++ " are not supported for now. Supported architectures: "
             ++ "['AquilaModel', 'AquilaForCausalLM', 'BaiChuanForCausalLM', "
             ++ "'BaichuanForCausalLM', 'BloomForCausalLM', 'FalconForCausalLM', "
             ++ "'GPT2LMHeadModel', 'GPTBigCodeForCausalLM', 'GPTJForCausalLM', "
             ++ "'GPTNeoXForCausalLM', 'InternLMForCausalLM', 'LlamaForCausalLM', "
             ++ "'LLaMAForCausalLM', 'MistralForCausalLM', 'MptForCausalLM', "
             ++ "'MPTForCausalLM', 'OPTForCausalLM', 'QWenLMHeadModel', "
             ++ "'RWForCausalLM']"))) d []).
Proof.
  intros archs d. split.
  - intros before arch after cls -> Hbefore Hin.
    unfold _get_model_architecture; cbn [getattr architectures].
    now rewrite (for_arch_found _ _ _ _ _ Hbefore Hin).
  - intros Hnone.
    unfold _get_model_architecture; cbn [getattr architectures].
    rewrite (for_arch_none _ _ Hnone).
    reflexivity.
Qed.

(** The second candidate is the first registered one, an alias of Llama;
    and a list with no registered name is refused. *)
Lemma get_model_architecture_first_registered_witness :
  _get_model_architecture
    {| architectures := Has ["Llama"; "LLaMAForCausalLM"; "OPTForCausalLM"] |}
    float32
  = Run (Returns LlamaForCausalLM) float32 []
  /\
  result (_get_model_architecture {| architectures := Has ["UnknownModel"] |}
            float32)
  = Raises (ValueError
      ("Model architectures ['UnknownModel'] are not supported for now. "
       ++ "Supported architectures: "
       ++ "['AquilaModel', 'AquilaForCausalLM', 'BaiChuanForCausalLM', "
       ++ "'BaichuanForCausalLM', 'BloomForCausalLM', 'FalconForCausalLM', "
       ++ "'GPT2LMHeadModel', 'GPTBigCodeForCausalLM', 'GPTJForCausalLM', "
       ++ "'GPTNeoXForCausalLM', 'InternLMForCausalLM', 'LlamaForCausalLM', "
       ++ "'LLaMAForCausalLM', 'MistralForCausalLM', 'MptForCausalLM', "
       ++ "'MPTForCausalLM', 'OPTForCausalLM', 'QWenLMHeadModel', "
       ++ "'RWForCausalLM']")).
Proof.
  split.
  - apply (proj1 (get_model_architecture_first_registered
                    ["Llama"; "LLaMAForCausalLM"; "OPTForCausalLM"] float32)
             ["Llama"] "LLaMAForCausalLM" ["OPTForCausalLM"] LlamaForCausalLM).
    + reflexivity.
    + intros a [<-|[]]. simpl. intuition discriminate.
    + simpl. do 12 right. left. reflexivity.
  - rewrite (proj2 (get_model_architecture_first_registered
                      ["UnknownModel"] float32)).
    + reflexivity.
    + intros a [<-|[]]. simpl. intuition discriminate.
Defined.

(** C10.  A configuration object with no [architectures] attribute is
    treated as one with an empty candidate list: resolution raises the
    [ValueError] about architectures, with [[]] for the candidates, and not
    an attribute error. *)
Theorem get_model_architecture_missing_attribute :
  forall d : torch_dtype,
    _get_model_architecture {| architectures := Missing |} d
    = Run (Raises (ValueError
        ("Model architectures [] are not supported for now. "
         ++ "Supported architectures: " ++ repr_list repr_str (keys _MODEL_REGISTRY))))
      d [].
Proof. intros d. reflexivity. Qed.

(** ** The load-format gate *)

(** C7.  When the load format is [tensorizer] and the resolved class is not
    in [_MODEL_CLASSES_SUPPORT_TENSORIZER], [get_model] raises the
    [ValueError] that names the class; the default dtype is as before and no
    collaborator was called, so neither quantization validation nor
    construction has begun. *)
Theorem get_model_tensorizer_unsupported :
  forall (w : World) (cfg : ModelConfig) (d : torch_dtype) (cls : model_class),
    result (_get_model_architecture (hf_config cfg) d) = Returns cls ->
    load_format cfg = "tensorizer" ->
    ~ In cls _MODEL_CLASSES_SUPPORT_TENSORIZER ->
    get_model w cfg d
    = Run (Raises (ValueError
        ("Tensorizer is not supported for " ++ str_class w cls ++ "."))) d [].
Proof.
  intros w cfg d cls Hres Hlf Hnot.
  rewrite (get_model_resolved _ _ _ _ Hres).
  unfold get_model_from. apply bind_raises.
  apply class_in_not_In in Hnot. rewrite Hlf, Hnot. reflexivity.
Qed.

Lemma get_model_tensorizer_unsupported_witness :
  get_model (calm_world (8, 0)%Z)
    (sample_config ["LlamaForCausalLM"] "tensorizer" float16 None) float32
  = Run (Raises (ValueError
      ("Tensorizer is not supported for "
       ++ "<class 'vllm.model_executor.models.llama.LlamaForCausalLM'>.")))
      float32 [].
Proof.
  apply (get_model_tensorizer_unsupported (calm_world (8, 0)%Z)
           (sample_config ["LlamaForCausalLM"] "tensorizer" float16 None)
           float32 LlamaForCausalLM).
  - reflexivity.
  - reflexivity.
  - simpl. intuition discriminate.
Defined.

(** ** Case analysis of the pipeline *)

Ltac run_monad :=
  unfold get_model_create, get_model_with_body, _set_default_torch_dtype,
    get_model_quant_config, get_quant_config, get_device_capability,
    construct, cuda, initialize_dummy_weights, load_weights, eval, print,
    bind, when, may_fail, emit, ret, raise, get_default_dtype,
    set_default_dtype.

Ltac split_match :=
  match goal with
  | |- context [match ?x with _ => _ end] =>
      lazymatch x with
      | context [match _ with _ => _ end] => fail
      | _ => destruct x eqn:?
      end
  end.

Lemma get_model_quant_config_run (w : World) (cfg : ModelConfig)
    (cls : model_class) (d : torch_dtype) :
  quant_config_run w cfg cls d (get_model_quant_config w cfg cls d).
Proof.
  unfold get_model_quant_config.
  destruct (quantization cfg) as [scheme|] eqn:Hq; [|now apply NotRequested].
  destruct (class_in cls _MODEL_CLASSES_SUPPORT_QUANTIZATION) eqn:Hcls.
  2:{ apply class_in_not_In in Hcls. now apply ClassUnsupported with scheme. }
  apply class_in_In in Hcls.
  run_monad; cbn.
  destruct (quant_config_of w scheme (model cfg) (download_dir cfg))
    as [why|qc] eqn:Hqc; cbn.
  { now apply LoaderFailed. }
  destruct (device_capability w) as [why|capability] eqn:Hcap; cbn.
  { now apply QueryFailed with qc. }
  fold (capability_level capability).
  destruct (Z.ltb_spec (capability_level capability) (get_min_capability qc))
    as [Hlt|Hge]; cbn.
  { now apply AcceleratorBelow. }
  destruct (dtype_in (dtype cfg) (get_supported_act_dtypes qc)) eqn:Hdt; cbn.
  - apply dtype_in_In in Hdt. now apply Validated with capability.
  - apply dtype_in_not_In in Hdt. now apply DtypeUnsupported with capability.
Qed.

(** Lines 101 to 126 begin with the same three calls and construct once.
    They raise nothing of this module's own.  On a normal return the default
    dtype is back to what it was; when a collaborator fails inside the
    [with] block it is left at the configuration's dtype. *)
Lemma get_model_create_run (w : World) (cfg : ModelConfig) (cls : model_class)
    (quant_config : option QuantizationConfig) (d : torch_dtype) :
  exists rest,
    calls (get_model_create w cfg cls quant_config d)
    = (creation_calls w cfg cls quant_config ++ rest)%list /\
    existsb is_construct rest = false /\
    match result (get_model_create w cfg cls quant_config d) with
    | Returns m =>
        dtype_after (get_model_create w cfg cls quant_config d) = d /\
        m_class m = cls /\
        m_args m = model_func_args cfg cls quant_config /\
        m_param_dtype m = dtype cfg /\
        m_device m = CudaDevice /\
        m_training m = false
    | Raises (Propagated _) =>
        dtype_after (get_model_create w cfg cls quant_config d) = dtype cfg
    | Raises _ => False
    end.
Proof.
  unfold creation_calls, model_func_args. run_monad.
  repeat (split_match; cbn).
  all: eexists; split; [reflexivity|]; split; [reflexivity|]; cbn.
  all: repeat split; reflexivity.
Qed.

(** [get_model] after resolution: the load-format gate, the quantization
    gate, then creation. *)
Lemma get_model_from_run (w : World) (cfg : ModelConfig) (cls : model_class)
    (d : torch_dtype) :
  (load_format cfg = "tensorizer" /\
   ~ In cls _MODEL_CLASSES_SUPPORT_TENSORIZER /\
   get_model_from w cfg cls d
   = Run (Raises (ValueError (tensorizer_message w cls))) d [])
  \/
  ((load_format cfg = "tensorizer" -> In cls _MODEL_CLASSES_SUPPORT_TENSORIZER) /\
   ((exists e,
       result (get_model_quant_config w cfg cls d) = Raises e /\
       get_model_from w cfg cls d
       = Run (Raises e) d (calls (get_model_quant_config w cfg cls d)))
    \/
    (exists quant_config,
       result (get_model_quant_config w cfg cls d) = Returns quant_config /\
       get_model_from w cfg cls d
       = Run (result (get_model_create w cfg cls quant_config d))
           (dtype_after (get_model_create w cfg cls quant_config d))
           (calls (get_model_quant_config w cfg cls d)
            ++ calls (get_model_create w cfg cls quant_config d))%list))).
Proof.
  assert (Hq : get_model_quant_config w cfg cls d
               = Run (result (get_model_quant_config w cfg cls d)) d
                   (calls (get_model_quant_config w cfg cls d))).
  { destruct (get_model_quant_config_run w cfg cls d); reflexivity. }
  assert (Hnext :
    (exists e,
       result (get_model_quant_config w cfg cls d) = Raises e /\
       (quant_config <- get_model_quant_config w cfg cls;;
        get_model_create w cfg cls quant_config) d
       = Run (Raises e) d (calls (get_model_quant_config w cfg cls d)))
    \/
    (exists quant_config,
       result (get_model_quant_config w cfg cls d) = Returns quant_config /\
       (quant_config <- get_model_quant_config w cfg cls;;
        get_model_create w cfg cls quant_config) d
       = Run (result (get_model_create w cfg cls quant_config d))
           (dtype_after (get_model_create w cfg cls quant_config d))
           (calls (get_model_quant_config w cfg cls d)
            ++ calls (get_model_create w cfg cls quant_config d))%list)).
  { destruct (result (get_model_quant_config w cfg cls d)) as [qc|e] eqn:Hres.
    - right. exists qc. split; [reflexivity|].
      apply bind_run. exact Hq.
    - left. exists e. split; [reflexivity|].
      apply bind_raises. exact Hq. }
  unfold get_model_from.
  destruct (String.eqb_spec (load_format cfg) "tensorizer") as [Hlf|Hlf];
    [destruct (class_in cls _MODEL_CLASSES_SUPPORT_TENSORIZER) eqn:Hcls|].
  - right. split; [intros _; now apply class_in_In|].
    now rewrite bind_when_false.
  - left. apply class_in_not_In in Hcls. now repeat split.
  - right. split; [intros H; contradiction|].
    now rewrite bind_when_false.
Qed.

Lemma get_model_past_format_gate (w : World) (cfg : ModelConfig)
    (d : torch_dtype) (cls : model_class) :
  result (_get_model_architecture (hf_config cfg) d) = Returns cls ->
  (load_format cfg = "tensorizer" -> In cls _MODEL_CLASSES_SUPPORT_TENSORIZER) ->
  get_model w cfg d
  = (quant_config <- get_model_quant_config w cfg cls;;
     get_model_create w cfg cls quant_config) d.
Proof.
  intros Hres Hgate.
  rewrite (get_model_resolved _ _ _ _ Hres). unfold get_model_from.
  assert (Hb : (load_format cfg =? "tensorizer")
               && negb (class_in cls _MODEL_CLASSES_SUPPORT_TENSORIZER) = false).
  { destruct (String.eqb_spec (load_format cfg) "tensorizer") as [Hlf|Hlf];
      [|reflexivity].
    apply Hgate, class_in_In in Hlf. now rewrite Hlf. }
  rewrite Hb. apply bind_when_false.
Qed.

(** The quantization gate once the loader and the capability query have
    answered. *)
Lemma get_model_quant_config_answered (w : World) (cfg : ModelConfig)
    (cls : model_class) (d : torch_dtype) (scheme : string)
    (qc : QuantizationConfig) (capability : Z * Z) :
  quantization cfg = Some scheme ->
  In cls _MODEL_CLASSES_SUPPORT_QUANTIZATION ->
  quant_config_of w scheme (model cfg) (download_dir cfg) = inr qc ->
  device_capability w = inr capability ->
  get_model_quant_config w cfg cls d
  = if (capability_level capability <? get_min_capability qc)%Z
    then Run (Raises (ValueError
                (capability_message scheme (get_min_capability qc)
                   (capability_level capability))))
           d (two_queries cfg scheme)
    else if dtype_in (dtype cfg) (get_supported_act_dtypes qc)
    then Run (Returns (Some qc)) d (two_queries cfg scheme)
    else Run (Raises (ValueError
                (dtype_message (dtype cfg) scheme (get_supported_act_dtypes qc))))
           d (two_queries cfg scheme).
Proof.
  intros Hq Hcls Hqc Hcap. apply class_in_In in Hcls.
  unfold get_model_quant_config. rewrite Hq, Hcls.
  run_monad; cbn. rewrite Hqc; cbn. rewrite Hcap; cbn.
  fold (capability_level capability).
  destruct (capability_level capability <? get_min_capability qc)%Z;
    [reflexivity|cbn].
  destruct (dtype_in (dtype cfg) (get_supported_act_dtypes qc)); reflexivity.
Qed.

Lemma not_construct_in (l : list event) (cls : model_class)
    (args : list ctor_arg) (no_init : bool) :
  existsb is_construct l = false -> ~ In (EvConstruct cls args no_init) l.
Proof.
  intros H Hin.
  assert (existsb is_construct l = true); [|congruence].
  apply existsb_exists. now exists (EvConstruct cls args no_init).
Qed.

Lemma not_set_default_dtype_in (l : list event) (d : torch_dtype) :
  existsb is_set_default_dtype l = false -> ~ In (EvSetDefaultDtype d) l.
Proof.
  intros H Hin.
  assert (existsb is_set_default_dtype l = true); [|congruence].
  apply existsb_exists. now exists (EvSetDefaultDtype d).
Qed.

(** ** The quantization gate *)

(** C4, as amended.  When the load format is not [tensorizer], a scheme is
    requested and the resolved class is not in
    [_MODEL_CLASSES_SUPPORT_QUANTIZATION], [get_model] raises the
    [ValueError] that names the class, whatever the dtype and the
    accelerator: no collaborator is called, so neither the quantization
    config loader nor the capability query is consulted. *)
Theorem get_model_quantization_unsupported :
  forall (w : World) (cfg : ModelConfig) (d : torch_dtype) (cls : model_class)
         (scheme : string),
    result (_get_model_architecture (hf_config cfg) d) = Returns cls ->
    load_format cfg <> "tensorizer" ->
    quantization cfg = Some scheme ->
    ~ In cls _MODEL_CLASSES_SUPPORT_QUANTIZATION ->
    get_model w cfg d
    = Run (Raises (ValueError
        ("Quantization is not supported for " ++ str_class w cls ++ "."))) d [].
Proof.
  intros w cfg d cls scheme Hres Hlf Hq Hcls.
  rewrite (get_model_past_format_gate _ _ _ _ Hres) by (intros H; contradiction).
  apply bind_raises.
  apply class_in_not_In in Hcls.
  unfold get_model_quant_config. rewrite Hq, Hcls. reflexivity.
Qed.

(** OPT with scheme [awq]: refused by name, nothing consulted. *)
Lemma get_model_quantization_unsupported_witness :
  get_model (calm_world (7, 5)%Z)
    (sample_config ["OPTForCausalLM"] "auto" bfloat16 (Some "awq")) float32
  = Run (Raises (ValueError
      ("Quantization is not supported for "
       ++ "<class 'vllm.model_executor.models.opt.OPTForCausalLM'>.")))
      float32 [].
Proof.
  apply (get_model_quantization_unsupported (calm_world (7, 5)%Z)
           (sample_config ["OPTForCausalLM"] "auto" bfloat16 (Some "awq"))
           float32 OPTForCausalLM "awq").
  - reflexivity.
  - discriminate.
  - reflexivity.
  - simpl. intuition discriminate.
Defined.

(** C4 as stated fails: OPT with scheme [awq] and load format [tensorizer]
    requests quantization for a class outside the quantization-capable set,
    and [get_model] raises the error about Tensorizer, not the one about
    quantization. *)
Lemma get_model_quantization_unsupported_counterexample :
  quantization (sample_config ["OPTForCausalLM"] "tensorizer" float16 (Some "awq"))
  = Some "awq"
  /\ result (_get_model_architecture
               (hf_config (sample_config ["OPTForCausalLM"] "tensorizer" float16
                             (Some "awq"))) float32)
     = Returns OPTForCausalLM
  /\ ~ In OPTForCausalLM _MODEL_CLASSES_SUPPORT_QUANTIZATION
  /\ get_model (calm_world (8, 0)%Z)
       (sample_config ["OPTForCausalLM"] "tensorizer" float16 (Some "awq")) float32
     = Run (Raises (ValueError
         ("Tensorizer is not supported for "
          ++ "<class 'vllm.model_executor.models.opt.OPTForCausalLM'>.")))
         float32 []
  /\ result (get_model (calm_world (8, 0)%Z)
       (sample_config ["OPTForCausalLM"] "tensorizer" float16 (Some "awq")) float32)
     <> Raises (ValueError
         ("Quantization is not supported for "
          ++ str_class (calm_world (8, 0)%Z) OPTForCausalLM ++ ".")).
Proof.
  repeat split; try reflexivity.
  - simpl. intuition discriminate.
  - vm_compute. discriminate.
Qed.

(** C5.  In the quantization gate, once the loader has returned the scheme's
    configuration and the accelerator has reported (major, minor), the
    capability is the integer major*10+minor.  If it is below the scheme's
    minimum, [get_model] raises the [ValueError] that prints the minimum and
    the current value, after the two queries and nothing else.  If it is at
    least the minimum, the dtype decides: outside the supported list the
    dtype error is raised, inside it [get_model] raises no [ValueError]. *)
Theorem get_model_capability_gate :
  forall (w : World) (cfg : ModelConfig) (d : torch_dtype) (cls : model_class)
         (scheme : string) (qc : QuantizationConfig) (major minor : Z),
    result (_get_model_architecture (hf_config cfg) d) = Returns cls ->
    (load_format cfg = "tensorizer" -> In cls _MODEL_CLASSES_SUPPORT_TENSORIZER) ->
    quantization cfg = Some scheme ->
    In cls _MODEL_CLASSES_SUPPORT_QUANTIZATION ->
    quant_config_of w scheme (model cfg) (download_dir cfg) = inr qc ->
    device_capability w = inr (major, minor) ->
    ((major * 10 + minor < get_min_capability qc)%Z ->
       get_model w cfg d
       = Run (Raises (ValueError
           ("The quantization method " ++ scheme
            ++ " is not supported for the current GPU. Minimum capability: "
            ++ str_int (get_min_capability qc) ++ ". Current capability: "
            ++ str_int (major * 10 + minor) ++ ".")))
           d [EvGetQuantConfig scheme (model cfg) (download_dir cfg);
              EvGetDeviceCapability])
    /\
    ((get_min_capability qc <= major * 10 + minor)%Z ->
       (~ In (dtype cfg) (get_supported_act_dtypes qc) ->
          result (get_model w cfg d)
          = Raises (ValueError
              (dtype_message (dtype cfg) scheme (get_supported_act_dtypes qc))))
       /\
       (In (dtype cfg) (get_supported_act_dtypes qc) ->
          forall msg, result (get_model w cfg d) <> Raises (ValueError msg))).
Proof.
  intros w cfg d cls scheme qc major minor Hres Hgate Hq Hcls Hqc Hcap.
  rewrite (get_model_past_format_gate _ _ _ _ Hres Hgate).
  pose proof (get_model_quant_config_answered w cfg cls d scheme qc
                (major, minor) Hq Hcls Hqc Hcap) as Hrun.
  change (capability_level (major, minor)) with (major * 10 + minor)%Z in Hrun.
  split; [intros Hlt|intros Hge; split; intros Hdt].
  - apply Z.ltb_lt in Hlt. rewrite Hlt in Hrun.
    apply bind_raises. rewrite Hrun. reflexivity.
  - apply Z.ltb_ge in Hge. apply dtype_in_not_In in Hdt.
    rewrite Hge, Hdt in Hrun.
    rewrite (bind_raises _ _ _ _ _ _ Hrun). reflexivity.
  - apply Z.ltb_ge in Hge. apply dtype_in_In in Hdt.
    rewrite Hge, Hdt in Hrun.
    rewrite (bind_run _ _ _ _ _ _ Hrun). cbn [result].
    destruct (get_model_create_run w cfg cls (Some qc) d) as [rest [_ [_ Hr]]].
    intros msg Heq. rewrite Heq in Hr. exact Hr.
Qed.

(** Mistral with scheme [awq], whose minimum is 80: refused at capability
    (7, 5), and at (8, 6) the dtype check is what refuses bfloat16. *)
Lemma get_model_capability_gate_witness :
  get_model (calm_world (7, 5)%Z)
    (sample_config ["MistralForCausalLM"] "auto" float16 (Some "awq")) float32
  = Run (Raises (ValueError
      ("The quantization method awq is not supported for the current GPU. "
       ++ "Minimum capability: 80. Current capability: 75.")))
      float32 [EvGetQuantConfig "awq" "org/model" None; EvGetDeviceCapability]
  /\
  result (get_model (calm_world (8, 6)%Z)
            (sample_config ["MistralForCausalLM"] "auto" bfloat16 (Some "awq"))
            float32)
  = Raises (ValueError
      ("torch.bfloat16 is not supported for quantization method awq. "
       ++ "Supported dtypes: [torch.float16]")).
Proof.
  split.
  - apply (proj1 (get_model_capability_gate (calm_world (7, 5)%Z)
             (sample_config ["MistralForCausalLM"] "auto" float16 (Some "awq"))
             float32 MistralForCausalLM "awq" sample_quant_config 7 5
             eq_refl (fun H => ltac:(discriminate H)) eq_refl
             (or_intror (or_introl eq_refl)) eq_refl eq_refl)).
    simpl. lia.
  - apply (proj2 (get_model_capability_gate (calm_world (8, 6)%Z)
             (sample_config ["MistralForCausalLM"] "auto" bfloat16 (Some "awq"))
             float32 MistralForCausalLM "awq" sample_quant_config 8 6
             eq_refl (fun H => ltac:(discriminate H)) eq_refl
             (or_intror (or_introl eq_refl)) eq_refl eq_refl)).
    + simpl. lia.
    + simpl. intuition discriminate.
Defined.

(** C6.  In a quantized load that has passed the capability check, a dtype
    outside the scheme's supported list makes [get_model] raise the
    [ValueError] that prints the dtype and the list, after the two queries
    and nothing else; a dtype in the list lets creation go on, and the class
    is called with the configuration object and the scheme's configuration. *)
Theorem get_model_dtype_gate :
  forall (w : World) (cfg : ModelConfig) (d : torch_dtype) (cls : model_class)
         (scheme : string) (qc : QuantizationConfig) (major minor : Z),
    result (_get_model_architecture (hf_config cfg) d) = Returns cls ->
    (load_format cfg = "tensorizer" -> In cls _MODEL_CLASSES_SUPPORT_TENSORIZER) ->
    quantization cfg = Some scheme ->
    In cls _MODEL_CLASSES_SUPPORT_QUANTIZATION ->
    quant_config_of w scheme (model cfg) (download_dir cfg) = inr qc ->
    device_capability w = inr (major, minor) ->
    (get_min_capability qc <= major * 10 + minor)%Z ->
    (~ In (dtype cfg) (get_supported_act_dtypes qc) ->
       get_model w cfg d
       = Run (Raises (ValueError
           (str_dtype (dtype cfg) ++ " is not supported for quantization method "
            ++ scheme ++ ". Supported dtypes: "
            ++ repr_list str_dtype (get_supported_act_dtypes qc))))
           d [EvGetQuantConfig scheme (model cfg) (download_dir cfg);
              EvGetDeviceCapability])
    /\
    (In (dtype cfg) (get_supported_act_dtypes qc) ->
       exists rest,
         calls (get_model w cfg d)
         = ([EvGetQuantConfig scheme (model cfg) (download_dir cfg);
             EvGetDeviceCapability;
             EvPrint ("Memory usage before model creation: " ++ get_mem_usage w);
             EvSetDefaultDtype (dtype cfg);
             EvConstruct cls [ArgConfig (hf_config cfg); ArgQuant (Some qc)]
               (load_format cfg =? "tensorizer")] ++ rest)%list).
Proof.
  intros w cfg d cls scheme qc major minor Hres Hgate Hq Hcls Hqc Hcap Hge.
  rewrite (get_model_past_format_gate _ _ _ _ Hres Hgate).
  pose proof (get_model_quant_config_answered w cfg cls d scheme qc
                (major, minor) Hq Hcls Hqc Hcap) as Hrun.
  change (capability_level (major, minor)) with (major * 10 + minor)%Z in Hrun.
  apply Z.ltb_ge in Hge. rewrite Hge in Hrun.
  split; intros Hdt.
  - apply dtype_in_not_In in Hdt. rewrite Hdt in Hrun.
    apply bind_raises. rewrite Hrun. reflexivity.
  - apply dtype_in_In in Hdt. rewrite Hdt in Hrun.
    rewrite (bind_run _ _ _ _ _ _ Hrun). cbn [calls].
    destruct (get_model_create_run w cfg cls (Some qc) d) as [rest [Hcalls _]].
    exists rest. rewrite Hcalls.
    unfold creation_calls, model_func_args, two_queries.
    apply class_in_In in Hcls. rewrite Hcls. reflexivity.
Qed.

(** Mistral with scheme [awq] at capability (8, 0): bfloat16 is refused,
    float16 reaches the constructor with the scheme's configuration. *)
Lemma get_model_dtype_gate_witness :
  get_model (calm_world (8, 0)%Z)
    (sample_config ["MistralForCausalLM"] "auto" bfloat16 (Some "awq")) float32
  = Run (Raises (ValueError
      ("torch.bfloat16 is not supported for quantization method awq. "
       ++ "Supported dtypes: [torch.float16]")))
      float32 [EvGetQuantConfig "awq" "org/model" None; EvGetDeviceCapability]
  /\
  exists rest,
    calls (get_model (calm_world (8, 0)%Z)
             (sample_config ["MistralForCausalLM"] "auto" float16 (Some "awq"))
             float32)
    = ([EvGetQuantConfig "awq" "org/model" None;
        EvGetDeviceCapability;
        EvPrint "Memory usage before model creation: CPU: 0MiB";
        EvSetDefaultDtype float16;
        EvConstruct MistralForCausalLM
          [ArgConfig (sample_hf_config ["MistralForCausalLM"]);
           ArgQuant (Some sample_quant_config)] false] ++ rest)%list.
Proof.
  split.
  - apply (proj1 (get_model_dtype_gate (calm_world (8, 0)%Z)
             (sample_config ["MistralForCausalLM"] "auto" bfloat16 (Some "awq"))
             float32 MistralForCausalLM "awq" sample_quant_config 8 0
             eq_refl (fun H => ltac:(discriminate H)) eq_refl
             (or_intror (or_introl eq_refl)) eq_refl eq_refl
             ltac:(simpl; lia))).
    simpl. intuition discriminate.
  - apply (proj2 (get_model_dtype_gate (calm_world (8, 0)%Z)
             (sample_config ["MistralForCausalLM"] "auto" float16 (Some "awq"))
             float32 MistralForCausalLM "awq" sample_quant_config 8 0
             eq_refl (fun H => ltac:(discriminate H)) eq_refl
             (or_intror (or_introl eq_refl)) eq_refl eq_refl
             ltac:(simpl; lia))).
    simpl. now left.
Defined.

(** ** Construction *)

(** C3, as amended.  Whenever [get_model] calls a model class, the class is
    the resolved one.  A class in [_MODEL_CLASSES_SUPPORT_QUANTIZATION] is
    called with the configuration object and a second argument: [None] when
    no scheme was requested, and otherwise the configuration the loader
    returned for the scheme, which has passed the capability and dtype
    checks.  Any other class is called with the configuration object alone,
    and only when no scheme was requested.  So a QuantizationConfig is passed
    only to a class that supports quantization and only when a scheme was
    requested. *)
Theorem get_model_constructor_arguments :
  forall (w : World) (cfg : ModelConfig) (d : torch_dtype) (cls : model_class)
         (args : list ctor_arg) (no_init : bool),
    In (EvConstruct cls args no_init) (calls (get_model w cfg d)) ->
    result (_get_model_architecture (hf_config cfg) d) = Returns cls
    /\
    (In cls _MODEL_CLASSES_SUPPORT_QUANTIZATION ->
       match quantization cfg with
       | None => args = [ArgConfig (hf_config cfg); ArgQuant None]
       | Some scheme =>
           exists qc capability,
             quant_config_of w scheme (model cfg) (download_dir cfg) = inr qc /\
             device_capability w = inr capability /\
             (get_min_capability qc <= fst capability * 10 + snd capability)%Z /\
             In (dtype cfg) (get_supported_act_dtypes qc) /\
             args = [ArgConfig (hf_config cfg); ArgQuant (Some qc)]
       end)
    /\
    (~ In cls _MODEL_CLASSES_SUPPORT_QUANTIZATION ->
       quantization cfg = None /\ args = [ArgConfig (hf_config cfg)]).
Proof.
  intros w cfg d cls args no_init Hin.
  destruct (result (_get_model_architecture (hf_config cfg) d))
    as [cls0|e] eqn:Hres.
  2:{ rewrite (get_model_unresolved _ _ _ _ Hres) in Hin. destruct Hin. }
  rewrite (get_model_resolved _ _ _ _ Hres) in Hin.
  pose proof (get_model_quant_config_run w cfg cls0 d) as Hrun.
  destruct (get_model_from_run w cfg cls0 d)
    as [[_ [_ Heq]]|[_ [[e [He Heq]]|[quant_config [Hqc Heq]]]]];
    rewrite Heq in Hin; cbn [calls] in Hin.
  - destruct Hin.
  - exfalso. inversion Hrun as [Hq E|s Hq Hc E|s why Hq Hc Hl E|s qc why Hq Hc Hl Hp E
                      |s qc cap Hq Hc Hl Hp Hlt E|s qc cap Hq Hc Hl Hp Hge Hdt E
                      |s qc cap Hq Hc Hl Hp Hge Hdt E];
      rewrite <- E in He, Hin; cbn in He, Hin; try discriminate;
      intuition discriminate.
  - destruct (get_model_create_run w cfg cls0 quant_config d)
      as [rest [Hcalls [Hrest _]]].
    rewrite Hcalls in Hin.
    assert (Hcreated : In (EvConstruct cls args no_init)
                         (creation_calls w cfg cls0 quant_config)).
    { apply in_app_or in Hin. destruct Hin as [Hin|Hin].
      - exfalso. inversion Hrun; match goal with
          | E : _ = get_model_quant_config _ _ _ _ |- _ => rewrite <- E in Hin
          end; cbn in Hin; intuition discriminate.
      - apply in_app_or in Hin. destruct Hin as [Hin|Hin]; [exact Hin|].
        exfalso. exact (not_construct_in _ _ _ _ Hrest Hin). }
    unfold creation_calls in Hcreated. cbn in Hcreated.
    destruct Hcreated as [Hc|[Hc|[Hc|[]]]]; try discriminate.
    injection Hc as <- <- _.
    split; [reflexivity|].
    unfold model_func_args.
    inversion Hrun as [Hq E|s Hq Hc E|s why Hq Hc Hl E|s qc why Hq Hc Hl Hp E
                      |s qc cap Hq Hc Hl Hp Hlt E|s qc cap Hq Hc Hl Hp Hge Hdt E
                      |s qc cap Hq Hc Hl Hp Hge Hdt E];
      rewrite <- E in Hqc; cbn in Hqc; try discriminate;
      injection Hqc as <-; rewrite Hq.
    + split; intros Hcls.
      * apply class_in_In in Hcls. now rewrite Hcls.
      * apply class_in_not_In in Hcls. now rewrite Hcls.
    + split; intros Hcls; [|contradiction].
      apply class_in_In in Hcls. rewrite Hcls.
      exists qc, cap. now repeat split.
Qed.

(** Llama asked for without a scheme is called with its configuration
    object and [None]. *)
Lemma get_model_constructor_arguments_witness :
  In (EvConstruct LlamaForCausalLM
        [ArgConfig (sample_hf_config ["LlamaForCausalLM"]); ArgQuant None] false)
     (calls (get_model (calm_world (8, 0)%Z)
               (sample_config ["LlamaForCausalLM"] "dummy" float16 None) float32))
  /\
  result (_get_model_architecture
            (hf_config (sample_config ["LlamaForCausalLM"] "dummy" float16 None))
            float32)
  = Returns LlamaForCausalLM
  /\
  [ArgConfig (sample_hf_config ["LlamaForCausalLM"]); ArgQuant None]
  = [ArgConfig (hf_config (sample_config ["LlamaForCausalLM"] "dummy" float16 None));
     ArgQuant None].
Proof.
  assert (Hin : In (EvConstruct LlamaForCausalLM
                      [ArgConfig (sample_hf_config ["LlamaForCausalLM"]);
                       ArgQuant None] false)
                   (calls (get_model (calm_world (8, 0)%Z)
                             (sample_config ["LlamaForCausalLM"] "dummy" float16
                                None) float32))).
  { simpl. right. right. left. reflexivity. }
  split; [exact Hin|]. split.
  - exact (proj1 (get_model_constructor_arguments _ _ _ _ _ _ Hin)).
  - exact (proj1 (proj2 (get_model_constructor_arguments _ _ _ _ _ _ Hin))
             (or_introl eq_refl)).
Defined.

(** C3 as stated fails: Llama with no scheme requested is not constructed
    from its configuration object alone.  The class is called with two
    arguments, the second being [None] in the quantization position. *)
Lemma get_model_constructor_arguments_counterexample :
  quantization (sample_config ["LlamaForCausalLM"] "dummy" float16 None) = None
  /\
  calls (get_model (calm_world (8, 0)%Z)
           (sample_config ["LlamaForCausalLM"] "dummy" float16 None) float32)
  = [EvPrint "Memory usage before model creation: CPU: 0MiB";
     EvSetDefaultDtype float16;
     EvConstruct LlamaForCausalLM
       [ArgConfig (sample_hf_config ["LlamaForCausalLM"]); ArgQuant None] false;
     EvCuda;
     EvInitializeDummyWeights;
     EvSetDefaultDtype float32;
     EvEval]
  /\
  [ArgConfig (sample_hf_config ["LlamaForCausalLM"]); ArgQuant None]
  <> [ArgConfig (sample_hf_config ["LlamaForCausalLM"])].
Proof.
  repeat split; discriminate.
Qed.

(** ** The dummy load of Llama *)

(** C8.  For candidates [["LlamaForCausalLM"]], load format [dummy] and no
    scheme, the calls [get_model] makes are always the first of: the memory
    print, setting the default dtype, constructing Llama, [cuda()],
    [initialize_dummy_weights], restoring the default dtype, [eval()].  So
    no quantization query is ever made and the move to the accelerator comes
    before the synthetic weights.  When no collaborator fails, all seven are
    made and the model returned is on the accelerator, out of training mode,
    with dummy weights. *)
Theorem get_model_dummy_llama :
  forall (w : World) (cfg : ModelConfig) (d : torch_dtype),
    architectures (hf_config cfg) = Has ["LlamaForCausalLM"] ->
    load_format cfg = "dummy" ->
    quantization cfg = None ->
    (exists rest,
       [EvPrint ("Memory usage before model creation: " ++ get_mem_usage w);
        EvSetDefaultDtype (dtype cfg);
        EvConstruct LlamaForCausalLM
          [ArgConfig (hf_config cfg); ArgQuant None] false;
        EvCuda;
        EvInitializeDummyWeights;
        EvSetDefaultDtype d;
        EvEval]
       = (calls (get_model w cfg d) ++ rest)%list)
    /\
    (init_failure w LlamaForCausalLM [ArgConfig (hf_config cfg); ArgQuant None]
       false = None ->
     (forall m, cuda_failure w m = None) ->
     (forall m, dummy_weights_failure w m = None) ->
     exists m,
       get_model w cfg d
       = Run (Returns m) d
           [EvPrint ("Memory usage before model creation: " ++ get_mem_usage w);
            EvSetDefaultDtype (dtype cfg);
            EvConstruct LlamaForCausalLM
              [ArgConfig (hf_config cfg); ArgQuant None] false;
            EvCuda;
            EvInitializeDummyWeights;
            EvSetDefaultDtype d;
            EvEval]
       /\ m_class m = LlamaForCausalLM
       /\ m_device m = CudaDevice
       /\ m_training m = false
       /\ m_weights m = Dummy).
Proof.
  intros w cfg d Harch Hlf Hq.
  assert (Hres : result (_get_model_architecture (hf_config cfg) d)
                 = Returns LlamaForCausalLM).
  { unfold _get_model_architecture. now rewrite Harch. }
  assert (Hgate : load_format cfg = "tensorizer" ->
                  In LlamaForCausalLM _MODEL_CLASSES_SUPPORT_TENSORIZER).
  { rewrite Hlf. discriminate. }
  rewrite (get_model_past_format_gate _ _ _ _ Hres Hgate).
  assert (Hnone : get_model_quant_config w cfg LlamaForCausalLM d
                  = Run (Returns None) d []).
  { unfold get_model_quant_config. now rewrite Hq. }
  rewrite (bind_run _ _ _ _ _ _ Hnone). cbn [app].
  rewrite run_eta.
  run_monad. rewrite Hlf. cbn.
  split.
  - repeat (split_match; cbn); eexists; reflexivity.
  - intros Hinit Hcuda Hdummy.
    rewrite Hinit; cbn. rewrite Hcuda; cbn. rewrite Hdummy; cbn.
    eexists. split; [reflexivity|]. now repeat split.
Qed.

Lemma get_model_dummy_llama_witness :
  exists m,
    get_model (calm_world (8, 0)%Z)
      (sample_config ["LlamaForCausalLM"] "dummy" float16 None) float32
    = Run (Returns m) float32
        [EvPrint "Memory usage before model creation: CPU: 0MiB";
         EvSetDefaultDtype float16;
         EvConstruct LlamaForCausalLM
           [ArgConfig (sample_hf_config ["LlamaForCausalLM"]); ArgQuant None] false;
         EvCuda;
         EvInitializeDummyWeights;
         EvSetDefaultDtype float32;
         EvEval]
    /\ m_class m = LlamaForCausalLM
    /\ m_device m = CudaDevice
    /\ m_training m = false
    /\ m_weights m = Dummy.
Proof.
  exact (proj2 (get_model_dummy_llama (calm_world (8, 0)%Z)
                  (sample_config ["LlamaForCausalLM"] "dummy" float16 None)
                  float32 eq_refl eq_refl eq_refl)
           eq_refl (fun _ => eq_refl) (fun _ => eq_refl)).
Defined.

(** ** The default dtype *)

(** C9.  Whenever [get_model] raises a [ValueError], the default dtype is
    the one on entry and [torch.set_default_dtype] was never called; and the
    message is one of the five of this module: unsupported architectures,
    Tensorizer unsupported, quantization unsupported, capability below the
    minimum, dtype unsupported. *)
Theorem get_model_validation_error_before_dtype :
  forall (w : World) (cfg : ModelConfig) (d : torch_dtype) (msg : string),
    result (get_model w cfg d) = Raises (ValueError msg) ->
    dtype_after (get_model w cfg d) = d
    /\ (forall d', ~ In (EvSetDefaultDtype d') (calls (get_model w cfg d)))
    /\ ((exists archs, msg = architectures_message archs)
        \/ (exists cls, msg = tensorizer_message w cls)
        \/ (exists cls, msg = quantization_message w cls)
        \/ (exists scheme minimum capability,
              (capability < minimum)%Z /\
              msg = capability_message scheme minimum capability)
        \/ (exists scheme supported,
              ~ In (dtype cfg) supported /\
              msg = dtype_message (dtype cfg) scheme supported)).
Proof.
  intros w cfg d msg Hraise.
  destruct (result (_get_model_architecture (hf_config cfg) d))
    as [cls|e] eqn:Hres.
  2:{ rewrite (get_model_unresolved _ _ _ _ Hres) in *. cbn in *.
      injection Hraise as ->.
      split; [reflexivity|]. split; [intros d' []|].
      left. exact (get_model_architecture_error _ _ _ Hres). }
  rewrite (get_model_resolved _ _ _ _ Hres) in *.
  pose proof (get_model_quant_config_run w cfg cls d) as Hrun.
  destruct (get_model_from_run w cfg cls d)
    as [[_ [_ Heq]]|[_ [[e [He Heq]]|[quant_config [Hqc Heq]]]]];
    rewrite Heq in *; cbn [result dtype_after calls] in *.
  - injection Hraise as <-.
    split; [reflexivity|]. split; [intros d' []|].
    right; left. now exists cls.
  - injection Hraise as ->.
    split; [reflexivity|].
    inversion Hrun as [Hq E|s Hq Hc E|s why Hq Hc Hl E|s qc why Hq Hc Hl Hp E
                      |s qc cap Hq Hc Hl Hp Hlt E|s qc cap Hq Hc Hl Hp Hge Hdt E
                      |s qc cap Hq Hc Hl Hp Hge Hdt E];
      rewrite <- E in He; cbn [result] in He; try discriminate;
      injection He as Hmsg; subst msg;
      (split; [intros d' Hin; cbn in Hin; intuition discriminate|]).
    + right; right; left. now exists cls.
    + right; right; right; left.
      exists s, (get_min_capability qc), (capability_level cap). now split.
    + right; right; right; right.
      exists s, (get_supported_act_dtypes qc). now split.
  - exfalso.
    destruct (get_model_create_run w cfg cls quant_config d) as [rest [_ [_ Hr]]].
    rewrite Hraise in Hr. exact Hr.
Qed.

(** Scenario D: Mistral, scheme [awq], capability 75 below the minimum 80. *)
Lemma get_model_validation_error_before_dtype_witness :
  dtype_after
    (get_model (calm_world (7, 5)%Z)
       (sample_config ["MistralForCausalLM"] "auto" float16 (Some "awq")) float32)
  = float32
  /\
  (forall d',
     ~ In (EvSetDefaultDtype d')
         (calls (get_model (calm_world (7, 5)%Z)
                   (sample_config ["MistralForCausalLM"] "auto" float16
                      (Some "awq")) float32))).
Proof.
  pose proof (get_model_validation_error_before_dtype (calm_world (7, 5)%Z)
                (sample_config ["MistralForCausalLM"] "auto" float16 (Some "awq"))
                float32
                ("The quantization method awq is not supported for the current GPU. "
                 ++ "Minimum capability: 80. Current capability: 75.")
                eq_refl) as H.
  split; [exact (proj1 H)|exact (proj1 (proj2 H))].
Defined.

(** The guard alone: when the body returns, the default dtype is restored;
    when the body raises, the statement after the [yield] is skipped and
    the default dtype is whatever the body left. *)
Lemma set_default_torch_dtype_returns {A} (dt d : torch_dtype) (body : M A)
    (a : A) :
  result (body dt) = Returns a ->
  result (_set_default_torch_dtype dt body d) = Returns a /\
  dtype_after (_set_default_torch_dtype dt body d) = d.
Proof.
  intros H. unfold _set_default_torch_dtype. run_monad. cbn.
  destruct (body dt) as [r d1 c1]. cbn in H. subst r. now split.
Qed.

Lemma set_default_torch_dtype_raises {A} (dt d : torch_dtype) (body : M A)
    (e : exn) :
  result (body dt) = Raises e ->
  result (_set_default_torch_dtype dt body d) = Raises e /\
  dtype_after (_set_default_torch_dtype dt body d) = dtype_after (body dt).
Proof.
  intros H. unfold _set_default_torch_dtype. run_monad. cbn.
  destruct (body dt) as [r d1 c1]. cbn in H. subst r. now split.
Qed.

(** C1, at an input where it fails.  The default dtype is float32; Llama is
    loaded as float16 from a checkpoint that cannot be read, so
    [load_weights] fails inside the [with] block.  [get_model] raises that
    failure and the default dtype stays float16: the second
    [set_default_dtype] is never called. *)
Theorem get_model_dtype_not_restored_on_failure :
  get_model missing_checkpoint_world
    (sample_config ["LlamaForCausalLM"] "auto" float16 None) float32
  = Run (Raises (Propagated "checkpoint not found")) float16
      [EvPrint "Memory usage before model creation: CPU: 0MiB";
       EvSetDefaultDtype float16;
       EvConstruct LlamaForCausalLM
         [ArgConfig (sample_hf_config ["LlamaForCausalLM"]); ArgQuant None] false;
       EvLoadWeights "org/model" None "auto" None None].
Proof. reflexivity. Qed.

(** X1.  When [get_model] returns a model, the default dtype is the one on
    entry. *)
Theorem get_model_returns_restores_dtype :
  forall (w : World) (cfg : ModelConfig) (d : torch_dtype) (m : Model),
    result (get_model w cfg d) = Returns m ->
    dtype_after (get_model w cfg d) = d.
Proof.
  intros w cfg d m Hret.
  destruct (result (_get_model_architecture (hf_config cfg) d))
    as [cls|e] eqn:Hres.
  2:{ now rewrite (get_model_unresolved _ _ _ _ Hres) in *. }
  rewrite (get_model_resolved _ _ _ _ Hres) in *.
  destruct (get_model_from_run w cfg cls d)
    as [[_ [_ Heq]]|[_ [[e [He Heq]]|[quant_config [Hqc Heq]]]]];
    rewrite Heq in *; cbn [result dtype_after] in *; try reflexivity.
  destruct (get_model_create_run w cfg cls quant_config d) as [rest [_ [_ Hr]]].
  rewrite Hret in Hr. apply Hr.
Qed.

Lemma get_model_returns_restores_dtype_witness :
  dtype_after
    (get_model (calm_world (8, 0)%Z)
       (sample_config ["LlamaForCausalLM"] "dummy" float16 None) float32)
  = float32.
Proof.
  exact (get_model_returns_restores_dtype (calm_world (8, 0)%Z)
           (sample_config ["LlamaForCausalLM"] "dummy" float16 None) float32
           _ eq_refl).
Defined.

(** X2.  When [get_model] raises after it has set the default dtype, the
    default dtype on exit is the configuration's dtype, not the one on
    entry. *)
Theorem get_model_failure_inside_guard :
  forall (w : World) (cfg : ModelConfig) (d : torch_dtype) (e : exn),
    result (get_model w cfg d) = Raises e ->
    In (EvSetDefaultDtype (dtype cfg)) (calls (get_model w cfg d)) ->
    dtype_after (get_model w cfg d) = dtype cfg.
Proof.
  intros w cfg d e Hraise Hin.
  destruct (result (_get_model_architecture (hf_config cfg) d))
    as [cls|e'] eqn:Hres.
  2:{ rewrite (get_model_unresolved _ _ _ _ Hres) in *. destruct Hin. }
  rewrite (get_model_resolved _ _ _ _ Hres) in *.
  pose proof (get_model_quant_config_run w cfg cls d) as Hrun.
  destruct (get_model_from_run w cfg cls d)
    as [[_ [_ Heq]]|[_ [[e' [He Heq]]|[quant_config [Hqc Heq]]]]];
    rewrite Heq in *; cbn [result dtype_after calls] in *.
  - destruct Hin.
  - exfalso. inversion Hrun; match goal with
      | E : _ = get_model_quant_config _ _ _ _ |- _ => rewrite <- E in Hin
      end; cbn in Hin; intuition discriminate.
  - destruct (get_model_create_run w cfg cls quant_config d) as [rest [_ [_ Hr]]].
    rewrite Hraise in Hr. destruct e; [contradiction|contradiction|exact Hr].
Qed.

Lemma get_model_failure_inside_guard_witness :
  dtype_after
    (get_model missing_checkpoint_world
       (sample_config ["LlamaForCausalLM"] "auto" float16 None) float32)
  = dtype (sample_config ["LlamaForCausalLM"] "auto" float16 None).
Proof.
  exact (get_model_failure_inside_guard missing_checkpoint_world
           (sample_config ["LlamaForCausalLM"] "auto" float16 None) float32
           (Propagated "checkpoint not found") eq_refl
           (or_intror (or_introl eq_refl))).
Defined.

(** * Further properties *)

(** ** Resolution *)

Lemma dict_get_In {V} (dict : list (string * V)) (k : string) (v : V) :
  dict_get dict k = Some v -> In (k, v) dict.
Proof.
  induction dict as [|[k' v'] rest IH]; simpl; [discriminate|].
  destruct (String.eqb_spec k k') as [->|Hne]; intros H.
  - left. congruence.
  - right. now apply IH.
Qed.

Lemma dict_get_None_not_key {V} (dict : list (string * V)) (k : string) :
  dict_get dict k = None -> ~ In k (keys dict).
Proof.
  induction dict as [|[k' v'] rest IH]; simpl; intros H; [tauto|].
  destruct (String.eqb_spec k k') as [->|Hne]; [discriminate|].
  intros [Heq|Hin]; [congruence|]. now apply IH.
Qed.

(** The loop returns a class whatever follows it, or falls through whatever
    follows it. *)
Lemma for_arch_uniform (archs : list string) :
  (exists cls, forall otherwise, for_arch archs otherwise = ret cls) \/
  (forall otherwise, for_arch archs otherwise = otherwise).
Proof.
  induction archs as [|a archs IH]; cbn [for_arch]; [now right|].
  destruct (dict_get _MODEL_REGISTRY a) as [cls|]; [|exact IH].
  left. now exists cls.
Qed.

Lemma for_arch_app (l1 l2 : list string) (otherwise : M model_class) :
  for_arch (l1 ++ l2) otherwise = for_arch l1 (for_arch l2 otherwise).
Proof.
  induction l1 as [|a l1 IH]; cbn [for_arch app]; [reflexivity|].
  now destruct (dict_get _MODEL_REGISTRY a).
Qed.

Lemma for_arch_returned (archs : list string) (otherwise : M model_class)
    (cls : model_class) (d : torch_dtype) :
  result (for_arch archs otherwise d) = Returns cls ->
  (forall c, result (otherwise d) <> Returns c) ->
  exists before arch after,
    archs = (before ++ arch :: after)%list /\
    (forall a, In a before -> ~ In a (keys _MODEL_REGISTRY)) /\
    In (arch, cls) _MODEL_REGISTRY.
Proof.
  intros Hret Hother.
  induction archs as [|a archs IH]; cbn [for_arch] in Hret.
  - now apply Hother in Hret.
  - destruct (dict_get _MODEL_REGISTRY a) as [c|] eqn:Hget.
    + cbn in Hret. injection Hret as ->.
      exists [], a, archs. split; [reflexivity|]. split; [intros ? []|].
      now apply dict_get_In.
    + destruct (IH Hret) as [before [arch [after [-> [Hb Hin]]]]].
      exists (a :: before), arch, after.
      split; [reflexivity|]. split; [|exact Hin].
      intros a' [<-|Ha']; [now apply dict_get_None_not_key|now apply Hb].
Qed.

(** X3.  Resolution over two candidate lists put end to end: the class of
    the first list if it has a registered name, else the class of the second
    if it has one, else the [ValueError] that prints the whole list. *)
Theorem get_model_architecture_app :
  forall (l1 l2 : list string) (d : torch_dtype),
    result (_get_model_architecture {| architectures := Has (l1 ++ l2)%list |} d)
    = match result (_get_model_architecture {| architectures := Has l1 |} d) with
      | Returns cls => Returns cls
      | Raises _ =>
          match result (_get_model_architecture {| architectures := Has l2 |} d) with
          | Returns cls => Returns cls
          | Raises _ =>
              Raises (ValueError (architectures_message (l1 ++ l2)%list))
          end
      end.
Proof.
  intros l1 l2 d.
  unfold _get_model_architecture; cbn [getattr architectures].
  rewrite for_arch_app.
  destruct (for_arch_uniform l1) as [[cls H1]|H1]; rewrite !H1; [reflexivity|].
  destruct (for_arch_uniform l2) as [[cls H2]|H2]; rewrite !H2; reflexivity.
Qed.

(** X4.  Resolution returns only what the registry holds for a candidate:
    when it returns [cls], the candidate list splits into names that are
    not keys, then a name the registry maps to [cls], then the rest. *)
Theorem get_model_architecture_sound :
  forall (config : PretrainedConfig) (d : torch_dtype) (cls : model_class),
    result (_get_model_architecture config d) = Returns cls ->
    exists before arch after,
      getattr (architectures config) [] = Some (before ++ arch :: after)%list /\
      (forall a, In a before -> ~ In a (keys _MODEL_REGISTRY)) /\
      In (arch, cls) _MODEL_REGISTRY.
Proof.
  intros config d cls Hret.
  unfold _get_model_architecture in Hret.
  destruct (getattr (architectures config) []) as [archs|]; [|discriminate].
  destruct (for_arch_returned archs _ cls d Hret) as [b [a [r [-> H]]]];
    [discriminate|].
  now exists b, a, r.
Qed.

Lemma get_model_architecture_sound_witness :
  exists before arch after,
    getattr (architectures (sample_hf_config ["Llama"; "RWForCausalLM"; "x"])) []
    = Some (before ++ arch :: after)%list /\
    (forall a, In a before -> ~ In a (keys _MODEL_REGISTRY)) /\
    In (arch, FalconForCausalLM) _MODEL_REGISTRY.
Proof.
  exact (get_model_architecture_sound
           (sample_hf_config ["Llama"; "RWForCausalLM"; "x"]) float32
           FalconForCausalLM eq_refl).
Defined.

(** ** Runs of the whole pipeline *)

(** Lines 101 to 126 make the first of the expected calls, in order; when
    they return, they have made all of them and return the expected model. *)
Lemma get_model_create_plan (w : World) (cfg : ModelConfig) (cls : model_class)
    (quant_config : option QuantizationConfig) (d : torch_dtype) :
  (exists rest,
     (creation_calls w cfg cls quant_config ++ weight_calls cfg
      ++ [EvSetDefaultDtype d; EvEval])%list
     = (calls (get_model_create w cfg cls quant_config d) ++ rest)%list)
  /\
  (forall m,
     result (get_model_create w cfg cls quant_config d) = Returns m ->
     get_model_create w cfg cls quant_config d
     = Run (Returns (loaded_model cfg cls quant_config)) d
         (creation_calls w cfg cls quant_config ++ weight_calls cfg
          ++ [EvSetDefaultDtype d; EvEval])%list).
Proof.
  unfold creation_calls, weight_calls, loaded_model, model_func_args. run_monad.
  repeat (split_match; cbn).
  all: split; [eexists; reflexivity|intros m H; try discriminate H; reflexivity].
Qed.

(** They return when no collaborator they call fails. *)
Lemma get_model_create_succeeds (w : World) (cfg : ModelConfig)
    (cls : model_class) (quant_config : option QuantizationConfig)
    (d : torch_dtype) :
  init_failure w cls (model_func_args cfg cls quant_config)
    (load_format cfg =? "tensorizer") = None ->
  (forall m, cuda_failure w m = None) ->
  (load_format cfg = "dummy" -> forall m, dummy_weights_failure w m = None) ->
  (load_format cfg <> "dummy" ->
   forall m, load_weights_failure w m (model cfg) (download_dir cfg)
               (load_format cfg) (revision cfg) (tensorizer_path cfg) = None) ->
  exists m, result (get_model_create w cfg cls quant_config d) = Returns m.
Proof.
  intros Hinit Hcuda Hdummy Hload.
  unfold model_func_args in Hinit. run_monad.
  destruct (class_in cls _MODEL_CLASSES_SUPPORT_QUANTIZATION);
    destruct (load_format cfg =? "tensorizer");
    cbn; rewrite Hinit; cbn;
    (destruct (String.eqb_spec (load_format cfg) "dummy") as [Hlf|Hlf]; cbn;
     [rewrite Hcuda; cbn; rewrite (Hdummy Hlf); cbn
     |rewrite (Hload Hlf); cbn; rewrite Hcuda; cbn]);
    eexists; reflexivity.
Qed.

(** The calls of the quantization gate are the first of its two queries. *)
Lemma get_model_quant_config_calls (w : World) (cfg : ModelConfig)
    (cls : model_class) (d : torch_dtype) :
  exists rest,
    validation_calls cfg
    = (calls (get_model_quant_config w cfg cls d) ++ rest)%list.
Proof.
  unfold validation_calls.
  destruct (get_model_quant_config_run w cfg cls d);
    match goal with H : quantization cfg = _ |- _ => rewrite H end;
    cbn; eexists; reflexivity.
Qed.

(** When the gate returns, it returns the loader's answer, the conditions
    it checks hold and both queries were made. *)
Lemma get_model_quant_config_returned (w : World) (cfg : ModelConfig)
    (cls : model_class) (d : torch_dtype)
    (quant_config : option QuantizationConfig) :
  result (get_model_quant_config w cfg cls d) = Returns quant_config ->
  quant_config = loader_answer w cfg /\
  calls (get_model_quant_config w cfg cls d) = validation_calls cfg /\
  quantization_accepted w cfg cls.
Proof.
  unfold loader_answer, validation_calls, quantization_accepted.
  intros Hret.
  destruct (get_model_quant_config_run w cfg cls d)
    as [Hq|s Hq Hc|s why Hq Hc Hl|s qc why Hq Hc Hl Hp
        |s qc cap Hq Hc Hl Hp Hlt|s qc cap Hq Hc Hl Hp Hge Hdt
        |s qc cap Hq Hc Hl Hp Hge Hdt];
    cbn in Hret; try discriminate; injection Hret as <-; rewrite Hq.
  - now repeat split.
  - rewrite Hl. repeat split; try assumption. now exists qc, cap.
Qed.

(** And it returns whenever the conditions hold. *)
Lemma get_model_quant_config_accepts (w : World) (cfg : ModelConfig)
    (cls : model_class) (d : torch_dtype) :
  quantization_accepted w cfg cls ->
  get_model_quant_config w cfg cls d
  = Run (Returns (loader_answer w cfg)) d (validation_calls cfg).
Proof.
  unfold quantization_accepted, loader_answer, validation_calls.
  destruct (quantization cfg) as [scheme|] eqn:Hq.
  - intros [Hcls [qc [cap [Hl [Hp [Hge Hdt]]]]]].
    rewrite (get_model_quant_config_answered w cfg cls d scheme qc cap
               Hq Hcls Hl Hp).
    apply Z.ltb_ge in Hge. apply dtype_in_In in Hdt.
    now rewrite Hge, Hdt, Hl.
  - intros _. unfold get_model_quant_config. now rewrite Hq.
Qed.

Lemma app_prefix_in {A} (l l' rest : list A) (x : A) :
  l = (l' ++ rest)%list -> In x l' -> In x l.
Proof. intros ->. intros H. apply in_or_app. now left. Qed.

(** Whatever happens after resolution, the calls made are the first of the
    planned ones. *)
Lemma get_model_from_calls (w : World) (cfg : ModelConfig) (cls : model_class)
    (d : torch_dtype) :
  exists rest,
    planned_calls w cfg cls d
    = (calls (get_model_from w cfg cls d) ++ rest)%list.
Proof.
  unfold planned_calls.
  destruct (get_model_from_run w cfg cls d)
    as [[_ [_ Heq]]|[_ [[e [He Heq]]|[quant_config [Hqc Heq]]]]];
    rewrite Heq; cbn [calls].
  - eexists. reflexivity.
  - destruct (get_model_quant_config_calls w cfg cls d) as [rest ->].
    eexists. rewrite <- app_assoc. reflexivity.
  - destruct (get_model_quant_config_returned _ _ _ _ _ Hqc) as [-> [-> _]].
    destruct (get_model_create_plan w cfg cls (loader_answer w cfg) d)
      as [[rest Hrest] _].
    exists rest. rewrite Hrest. now rewrite <- app_assoc.
Qed.

(** A returning run passed both gates, made every planned call and returns
    the expected model with the default dtype restored. *)
Lemma get_model_from_returned (w : World) (cfg : ModelConfig)
    (cls : model_class) (d : torch_dtype) (m : Model) :
  result (get_model_from w cfg cls d) = Returns m ->
  (load_format cfg = "tensorizer" -> In cls _MODEL_CLASSES_SUPPORT_TENSORIZER) /\
  quantization_accepted w cfg cls /\
  get_model_from w cfg cls d
  = Run (Returns (loaded_model cfg cls (loader_answer w cfg))) d
      (planned_calls w cfg cls d).
Proof.
  intros Hret. unfold planned_calls.
  destruct (get_model_from_run w cfg cls d)
    as [[_ [_ Heq]]|[Hgate [[e [He Heq]]|[quant_config [Hqc Heq]]]]];
    rewrite Heq in *; cbn [result] in Hret; try discriminate.
  destruct (get_model_quant_config_returned _ _ _ _ _ Hqc) as [-> [-> Hacc]].
  destruct (get_model_create_plan w cfg cls (loader_answer w cfg) d)
    as [_ Hplan].
  rewrite (Hplan m Hret). now repeat split.
Qed.

Lemma get_model_from_value_error (w : World) (cfg : ModelConfig)
    (cls : model_class) (d : torch_dtype) (msg : string) :
  result (get_model_from w cfg cls d) = Raises (ValueError msg) <->
  (load_format cfg = "tensorizer" /\
   ~ In cls _MODEL_CLASSES_SUPPORT_TENSORIZER /\
   msg = tensorizer_message w cls)
  \/
  ((load_format cfg = "tensorizer" -> In cls _MODEL_CLASSES_SUPPORT_TENSORIZER) /\
   result (get_model_quant_config w cfg cls d) = Raises (ValueError msg)).
Proof.
  destruct (get_model_from_run w cfg cls d)
    as [[Hlf [Hn Heq]]|[Hgate [[e [He Heq]]|[quant_config [Hqc Heq]]]]];
    rewrite Heq; cbn [result]; split.
  - intros H. injection H as <-. left.
    split; [assumption|]. split; [assumption|reflexivity].
  - intros [[_ [_ ->]]|[Hgate _]]; [reflexivity|]. exfalso. exact (Hn (Hgate Hlf)).
  - intros H. right. split; [assumption|]. injection H as ->. exact He.
  - intros [[Hlf [Hn _]]|[_ H]]; [exfalso; exact (Hn (Hgate Hlf))|].
    rewrite He in H. injection H as ->. reflexivity.
  - intros H. exfalso.
    destruct (get_model_create_run w cfg cls quant_config d) as [rest [_ [_ Hr]]].
    now rewrite H in Hr.
  - intros [[Hlf [Hn _]]|[_ H]]; [exfalso; exact (Hn (Hgate Hlf))|]. congruence.
Qed.

(** ** Failures before the model is created *)

(** X5.  When the [architectures] attribute of the configuration object is
    there and is [None], the default of [getattr] is not used and the [for]
    loop cannot iterate: [get_model] raises a [TypeError], not the
    [ValueError] about architectures, before any call and with the default
    dtype as before. *)
Theorem get_model_architectures_none :
  forall (w : World) (cfg : ModelConfig) (d : torch_dtype),
    architectures (hf_config cfg) = IsNone ->
    get_model w cfg d
    = Run (Raises (TypeError "'NoneType' object is not iterable")) d [].
Proof.
  intros w cfg d Hnone.
  apply get_model_unresolved.
  unfold _get_model_architecture. now rewrite Hnone.
Qed.

Lemma get_model_architectures_none_witness :
  get_model (calm_world (8, 0)%Z)
    (with_hf_config (sample_config [] "dummy" float16 None)
       {| architectures := IsNone |}) float32
  = Run (Raises (TypeError "'NoneType' object is not iterable")) float32 [].
Proof.
  exact (get_model_architectures_none (calm_world (8, 0)%Z)
           (with_hf_config (sample_config [] "dummy" float16 None)
              {| architectures := IsNone |}) float32 eq_refl).
Defined.

(** X6.  When none of the candidates read from the configuration object is
    a key of the registry, [get_model] raises the [ValueError] about
    architectures before anything else: whatever the load format, the scheme
    and the collaborators, no call is made and the default dtype is as
    before. *)
Theorem get_model_unregistered_first :
  forall (w : World) (cfg : ModelConfig) (d : torch_dtype) (archs : list string),
    getattr (architectures (hf_config cfg)) [] = Some archs ->
    (forall a, In a archs -> ~ In a (keys _MODEL_REGISTRY)) ->
    get_model w cfg d
    = Run (Raises (ValueError (architectures_message archs))) d [].
Proof.
  intros w cfg d archs Hattr Hnone.
  apply get_model_unresolved.
  unfold _get_model_architecture. rewrite Hattr.
  now rewrite (for_arch_none _ _ Hnone).
Qed.

(** An unknown name with scheme [awq] and load format [tensorizer]: only the
    architecture error is seen. *)
Lemma get_model_unregistered_first_witness :
  get_model missing_checkpoint_world
    (sample_config ["UnknownModel"] "tensorizer" bfloat16 (Some "awq")) float32
  = Run (Raises (ValueError (architectures_message ["UnknownModel"]))) float32 [].
Proof.
  apply (get_model_unregistered_first missing_checkpoint_world
           (sample_config ["UnknownModel"] "tensorizer" bfloat16 (Some "awq"))
           float32 ["UnknownModel"] eq_refl).
  intros a [<-|[]]. simpl. intuition discriminate.
Defined.

(** X7.  When the quantization config loader fails, [get_model] raises that
    failure unchanged.  The loader was its only call: the capability query
    is not made, no model is constructed and the default dtype is as
    before. *)
Theorem get_model_loader_failure :
  forall (w : World) (cfg : ModelConfig) (d : torch_dtype) (cls : model_class)
         (scheme why : string),
    result (_get_model_architecture (hf_config cfg) d) = Returns cls ->
    (load_format cfg = "tensorizer" -> In cls _MODEL_CLASSES_SUPPORT_TENSORIZER) ->
    quantization cfg = Some scheme ->
    In cls _MODEL_CLASSES_SUPPORT_QUANTIZATION ->
    quant_config_of w scheme (model cfg) (download_dir cfg) = inl why ->
    get_model w cfg d
    = Run (Raises (Propagated why)) d
        [EvGetQuantConfig scheme (model cfg) (download_dir cfg)].
Proof.
  intros w cfg d cls scheme why Hres Hgate Hq Hcls Hl.
  rewrite (get_model_past_format_gate _ _ _ _ Hres Hgate).
  apply bind_raises.
  destruct (get_model_quant_config_run w cfg cls d); congruence.
Qed.

Lemma get_model_loader_failure_witness :
  get_model no_scheme_file_world
    (sample_config ["LlamaForCausalLM"] "auto" float16 (Some "awq")) float32
  = Run (Raises (Propagated "quant_config.json not found")) float32
      [EvGetQuantConfig "awq" "org/model" None].
Proof.
  exact (get_model_loader_failure no_scheme_file_world
           (sample_config ["LlamaForCausalLM"] "auto" float16 (Some "awq"))
           float32 LlamaForCausalLM "awq" "quant_config.json not found"
           eq_refl (fun H => ltac:(discriminate H)) eq_refl
           (or_introl eq_refl) eq_refl).
Defined.

(** X8.  When the loader answers and the capability query fails,
    [get_model] raises that failure unchanged after the two queries: the
    scheme's minimum and dtypes are not looked at, no model is constructed
    and the default dtype is as before. *)
Theorem get_model_capability_query_failure :
  forall (w : World) (cfg : ModelConfig) (d : torch_dtype) (cls : model_class)
         (scheme why : string) (qc : QuantizationConfig),
    result (_get_model_architecture (hf_config cfg) d) = Returns cls ->
    (load_format cfg = "tensorizer" -> In cls _MODEL_CLASSES_SUPPORT_TENSORIZER) ->
    quantization cfg = Some scheme ->
    In cls _MODEL_CLASSES_SUPPORT_QUANTIZATION ->
    quant_config_of w scheme (model cfg) (download_dir cfg) = inr qc ->
    device_capability w = inl why ->
    get_model w cfg d
    = Run (Raises (Propagated why)) d
        [EvGetQuantConfig scheme (model cfg) (download_dir cfg);
         EvGetDeviceCapability].
Proof.
  intros w cfg d cls scheme why qc Hres Hgate Hq Hcls Hl Hp.
  rewrite (get_model_past_format_gate _ _ _ _ Hres Hgate).
  apply bind_raises.
  destruct (get_model_quant_config_run w cfg cls d);
    unfold two_queries; congruence.
Qed.

Lemma get_model_capability_query_failure_witness :
  get_model no_accelerator_world
    (sample_config ["LlamaForCausalLM"] "auto" float16 (Some "awq")) float32
  = Run (Raises (Propagated "no CUDA device")) float32
      [EvGetQuantConfig "awq" "org/model" None; EvGetDeviceCapability].
Proof.
  exact (get_model_capability_query_failure no_accelerator_world
           (sample_config ["LlamaForCausalLM"] "auto" float16 (Some "awq"))
           float32 LlamaForCausalLM "awq" "no CUDA device" sample_quant_config
           eq_refl (fun H => ltac:(discriminate H)) eq_refl
           (or_introl eq_refl) eq_refl eq_refl).
Defined.

(** ** Loads that return *)

(** X9.  When [get_model] returns a model, the class was resolved, the load
    format was allowed for it, a requested scheme passed every check of the
    quantization gate, every planned call was made in order, the default
    dtype is as on entry, and the model is the one built from the resolved
    class: on the accelerator, out of training mode, with parameters of the
    configuration's dtype, and with dummy weights exactly when the load
    format is [dummy]. *)
Theorem get_model_returned :
  forall (w : World) (cfg : ModelConfig) (d : torch_dtype) (m : Model),
    result (get_model w cfg d) = Returns m ->
    exists cls,
      result (_get_model_architecture (hf_config cfg) d) = Returns cls /\
      (load_format cfg = "tensorizer" ->
       In cls _MODEL_CLASSES_SUPPORT_TENSORIZER) /\
      quantization_accepted w cfg cls /\
      get_model w cfg d
      = Run (Returns (loaded_model cfg cls (loader_answer w cfg))) d
          (planned_calls w cfg cls d).
Proof.
  intros w cfg d m Hret.
  destruct (result (_get_model_architecture (hf_config cfg) d))
    as [cls|e] eqn:Hres.
  2:{ now rewrite (get_model_unresolved _ _ _ _ Hres) in Hret. }
  rewrite (get_model_resolved _ _ _ _ Hres) in *.
  exists cls. split; [reflexivity|].
  exact (get_model_from_returned w cfg cls d m Hret).
Qed.

(** Mistral from a tensorizer bundle with scheme [awq]. *)
Lemma get_model_returned_witness :
  quantization_accepted (calm_world (8, 0)%Z)
    (sample_config ["MistralForCausalLM"] "tensorizer" float16 (Some "awq"))
    MistralForCausalLM
  /\
  get_model (calm_world (8, 0)%Z)
    (sample_config ["MistralForCausalLM"] "tensorizer" float16 (Some "awq"))
    float32
  = Run (Returns
           {| m_class := MistralForCausalLM;
              m_args := [ArgConfig (sample_hf_config ["MistralForCausalLM"]);
                         ArgQuant (Some sample_quant_config)];
              m_no_init := true;
              m_param_dtype := float16;
              m_device := CudaDevice;
              m_training := false;
              m_weights := Loaded "org/model" None "tensorizer" None None |})
      float32
      [EvGetQuantConfig "awq" "org/model" None;
       EvGetDeviceCapability;
       EvPrint "Memory usage before model creation: CPU: 0MiB";
       EvSetDefaultDtype float16;
       EvConstruct MistralForCausalLM
         [ArgConfig (sample_hf_config ["MistralForCausalLM"]);
          ArgQuant (Some sample_quant_config)] true;
       EvLoadWeights "org/model" None "tensorizer" None None;
       EvCuda;
       EvSetDefaultDtype float32;
       EvEval].
Proof.
  destruct (get_model_returned (calm_world (8, 0)%Z)
              (sample_config ["MistralForCausalLM"] "tensorizer" float16
                 (Some "awq"))
              float32 _ eq_refl) as [cls [Hres [_ [Hacc Heq]]]].
  injection Hres as <-.
  split; [exact Hacc|exact Heq].
Defined.

(** X10.  [get_model] returns whenever nothing stops it: the class is
    resolved, the load format is allowed for it, a requested scheme passes
    the quantization gate, and the constructor, [cuda()] and the weight step
    of the load format do not fail.  It then returns the expected model
    after exactly the planned calls, with the default dtype as on entry. *)
Theorem get_model_succeeds :
  forall (w : World) (cfg : ModelConfig) (d : torch_dtype) (cls : model_class),
    result (_get_model_architecture (hf_config cfg) d) = Returns cls ->
    (load_format cfg = "tensorizer" -> In cls _MODEL_CLASSES_SUPPORT_TENSORIZER) ->
    quantization_accepted w cfg cls ->
    init_failure w cls (model_func_args cfg cls (loader_answer w cfg))
      (load_format cfg =? "tensorizer") = None ->
    (forall m, cuda_failure w m = None) ->
    (load_format cfg = "dummy" -> forall m, dummy_weights_failure w m = None) ->
    (load_format cfg <> "dummy" ->
     forall m, load_weights_failure w m (model cfg) (download_dir cfg)
                 (load_format cfg) (revision cfg) (tensorizer_path cfg) = None) ->
    get_model w cfg d
    = Run (Returns (loaded_model cfg cls (loader_answer w cfg))) d
        (planned_calls w cfg cls d).
Proof.
  intros w cfg d cls Hres Hgate Hacc Hinit Hcuda Hdummy Hload.
  rewrite (get_model_past_format_gate _ _ _ _ Hres Hgate).
  rewrite (bind_run _ _ _ _ _ _ (get_model_quant_config_accepts w cfg cls d Hacc)).
  destruct (get_model_create_succeeds w cfg cls (loader_answer w cfg) d
              Hinit Hcuda Hdummy Hload) as [m Hm].
  destruct (get_model_create_plan w cfg cls (loader_answer w cfg) d)
    as [_ Hplan].
  rewrite (Hplan m Hm). reflexivity.
Qed.

(** OPT loaded from its checkpoint without a scheme. *)
Lemma get_model_succeeds_witness :
  get_model (calm_world (7, 0)%Z)
    (sample_config ["OPTForCausalLM"] "auto" float16 None) float32
  = Run (Returns
           {| m_class := OPTForCausalLM;
              m_args := [ArgConfig (sample_hf_config ["OPTForCausalLM"])];
              m_no_init := false;
              m_param_dtype := float16;
              m_device := CudaDevice;
              m_training := false;
              m_weights := Loaded "org/model" None "auto" None None |})
      float32
      [EvPrint "Memory usage before model creation: CPU: 0MiB";
       EvSetDefaultDtype float16;
       EvConstruct OPTForCausalLM
         [ArgConfig (sample_hf_config ["OPTForCausalLM"])] false;
       EvLoadWeights "org/model" None "auto" None None;
       EvCuda;
       EvSetDefaultDtype float32;
       EvEval].
Proof.
  exact (get_model_succeeds (calm_world (7, 0)%Z)
           (sample_config ["OPTForCausalLM"] "auto" float16 None) float32
           OPTForCausalLM eq_refl (fun H => ltac:(discriminate H)) I eq_refl
           (fun _ => eq_refl) (fun _ _ => eq_refl) (fun _ _ => eq_refl)).
Defined.

(** ** What the calls can be *)

Lemma planned_calls_construct (w : World) (cfg : ModelConfig)
    (cls cls' : model_class) (d : torch_dtype) (args : list ctor_arg)
    (no_init : bool) :
  In (EvConstruct cls' args no_init) (planned_calls w cfg cls d) ->
  cls' = cls /\
  args = model_func_args cfg cls (loader_answer w cfg) /\
  no_init = (load_format cfg =? "tensorizer").
Proof.
  unfold planned_calls, validation_calls, creation_calls, weight_calls, two_queries.
  intros Hin.
  repeat (apply in_app_or in Hin; destruct Hin as [Hin|Hin]).
  - destruct (quantization cfg); cbn in Hin; intuition discriminate.
  - cbn in Hin. destruct Hin as [H|[H|[H|[]]]]; try discriminate.
    injection H as <- <- <-. now repeat split.
  - destruct (load_format cfg =? "dummy"); cbn in Hin; intuition discriminate.
  - cbn in Hin. intuition discriminate.
Qed.

Lemma planned_calls_weight_step (w : World) (cfg : ModelConfig)
    (cls : model_class) (d : torch_dtype) (e : event) :
  In e (planned_calls w cfg cls d) ->
  match e with
  | EvInitializeDummyWeights => load_format cfg = "dummy"
  | EvLoadWeights a b c r t =>
      load_format cfg <> "dummy" /\
      a = model cfg /\ b = download_dir cfg /\ c = load_format cfg /\
      r = revision cfg /\ t = tensorizer_path cfg
  | _ => True
  end.
Proof.
  unfold planned_calls, validation_calls, creation_calls, weight_calls, two_queries.
  intros Hin.
  repeat (apply in_app_or in Hin; destruct Hin as [Hin|Hin]).
  - destruct (quantization cfg); cbn in Hin;
      repeat (destruct Hin as [<-|Hin]; [exact I|]); destruct Hin.
  - cbn in Hin. repeat (destruct Hin as [<-|Hin]; [exact I|]). destruct Hin.
  - destruct (String.eqb_spec (load_format cfg) "dummy") as [Hlf|Hlf];
      cbn in Hin; repeat (destruct Hin as [<-|Hin]; [|]); try exact I;
      try destruct Hin; try assumption.
    now repeat split.
  - cbn in Hin. repeat (destruct Hin as [<-|Hin]; [exact I|]). destruct Hin.
Qed.

(** X11.  The calls [get_model] makes are always the first of one fixed
    list, in its order: the two queries when a scheme is requested, the
    memory print, setting the default dtype, the constructor, then
    [cuda()] and [initialize_dummy_weights] for the [dummy] format or
    [load_weights] and [cuda()] for any other, then restoring the default
    dtype and [eval()].  When resolution fails no call is made. *)
Theorem get_model_calls_in_order :
  forall (w : World) (cfg : ModelConfig) (d : torch_dtype),
    match result (_get_model_architecture (hf_config cfg) d) with
    | Returns cls =>
        exists rest,
          planned_calls w cfg cls d = (calls (get_model w cfg d) ++ rest)%list
    | Raises _ => calls (get_model w cfg d) = []
    end.
Proof.
  intros w cfg d.
  destruct (result (_get_model_architecture (hf_config cfg) d))
    as [cls|e] eqn:Hres.
  - rewrite (get_model_resolved _ _ _ _ Hres). apply get_model_from_calls.
  - now rewrite (get_model_unresolved _ _ _ _ Hres).
Qed.

(** X12.  A model class is called inside [no_init_or_tensor] exactly when
    the load format is [tensorizer]; the class is then Mistral, the only one
    the load-format gate lets through, and it is called with the
    configuration object and the quantization argument. *)
Theorem get_model_no_init_only_tensorizer :
  forall (w : World) (cfg : ModelConfig) (d : torch_dtype) (cls : model_class)
         (args : list ctor_arg) (no_init : bool),
    In (EvConstruct cls args no_init) (calls (get_model w cfg d)) ->
    (no_init = true <-> load_format cfg = "tensorizer") /\
    (no_init = true ->
     cls = MistralForCausalLM /\
     args = [ArgConfig (hf_config cfg); ArgQuant (loader_answer w cfg)]).
Proof.
  intros w cfg d cls args no_init Hin.
  destruct (result (_get_model_architecture (hf_config cfg) d))
    as [cls0|e] eqn:Hres.
  2:{ rewrite (get_model_unresolved _ _ _ _ Hres) in Hin. destruct Hin. }
  rewrite (get_model_resolved _ _ _ _ Hres) in Hin.
  assert (Hgate : load_format cfg = "tensorizer" ->
                  In cls0 _MODEL_CLASSES_SUPPORT_TENSORIZER).
  { destruct (get_model_from_run w cfg cls0 d) as [[_ [_ Heq]]|[Hgate _]];
      [|exact Hgate].
    rewrite Heq in Hin. destruct Hin. }
  destruct (get_model_from_calls w cfg cls0 d) as [rest Hrest].
  destruct (planned_calls_construct w cfg cls0 cls d args no_init
              (app_prefix_in _ _ _ _ Hrest Hin)) as [-> [-> ->]].
  split; [apply String.eqb_eq|].
  intros Hlf. apply String.eqb_eq in Hlf.
  destruct (Hgate Hlf) as [<-|[]].
  now split.
Qed.

Lemma get_model_no_init_only_tensorizer_witness :
  (true = true <->
   load_format (sample_config ["MistralForCausalLM"] "tensorizer" float16 None)
   = "tensorizer")
  /\
  (true = true ->
   MistralForCausalLM = MistralForCausalLM /\
   [ArgConfig (sample_hf_config ["MistralForCausalLM"]); ArgQuant None]
   = [ArgConfig
        (hf_config (sample_config ["MistralForCausalLM"] "tensorizer" float16 None));
      ArgQuant
        (loader_answer (calm_world (8, 0)%Z)
           (sample_config ["MistralForCausalLM"] "tensorizer" float16 None))]).
Proof.
  apply (get_model_no_init_only_tensorizer (calm_world (8, 0)%Z)
           (sample_config ["MistralForCausalLM"] "tensorizer" float16 None)
           float32).
  simpl. right. right. left. reflexivity.
Defined.

(** X13.  The weight step follows the load format and nothing else:
    [initialize_dummy_weights] is called only for the [dummy] format, and
    [load_weights] only for another format, with the configuration's model,
    download directory, load format, revision and tensorizer path.  So one
    load never does both. *)
Theorem get_model_weight_step :
  forall (w : World) (cfg : ModelConfig) (d : torch_dtype) (e : event),
    In e (calls (get_model w cfg d)) ->
    match e with
    | EvInitializeDummyWeights => load_format cfg = "dummy"
    | EvLoadWeights a b c r t =>
        load_format cfg <> "dummy" /\
        a = model cfg /\ b = download_dir cfg /\ c = load_format cfg /\
        r = revision cfg /\ t = tensorizer_path cfg
    | _ => True
    end.
Proof.
  intros w cfg d e Hin.
  destruct (result (_get_model_architecture (hf_config cfg) d))
    as [cls|e'] eqn:Hres.
  2:{ rewrite (get_model_unresolved _ _ _ _ Hres) in Hin. destruct Hin. }
  rewrite (get_model_resolved _ _ _ _ Hres) in Hin.
  destruct (get_model_from_calls w cfg cls d) as [rest Hrest].
  exact (planned_calls_weight_step w cfg cls d e
           (app_prefix_in _ _ _ _ Hrest Hin)).
Qed.

Lemma get_model_weight_step_witness :
  load_format (sample_config ["LlamaForCausalLM"] "pt" float16 None) <> "dummy" /\
  "org/model" = model (sample_config ["LlamaForCausalLM"] "pt" float16 None) /\
  None = download_dir (sample_config ["LlamaForCausalLM"] "pt" float16 None) /\
  "pt" = load_format (sample_config ["LlamaForCausalLM"] "pt" float16 None) /\
  None = revision (sample_config ["LlamaForCausalLM"] "pt" float16 None) /\
  None = tensorizer_path (sample_config ["LlamaForCausalLM"] "pt" float16 None).
Proof.
  apply (get_model_weight_step missing_checkpoint_world
           (sample_config ["LlamaForCausalLM"] "pt" float16 None) float32
           (EvLoadWeights "org/model" None "pt" None None)).
  simpl. do 3 right. left. reflexivity.
Defined.

(** ** Aliases, the default dtype and class names *)

(** X14.  The checks depend on the resolved class, not on the name that led
    to it: two configuration objects that resolve to the same class, used
    with the same other settings, get the same [ValueError] or none. *)
Theorem get_model_alias_same_verdict :
  forall (w : World) (cfg : ModelConfig) (hf1 hf2 : PretrainedConfig)
         (d : torch_dtype) (cls : model_class),
    result (_get_model_architecture hf1 d) = Returns cls ->
    result (_get_model_architecture hf2 d) = Returns cls ->
    forall msg,
      result (get_model w (with_hf_config cfg hf1) d) = Raises (ValueError msg) <->
      result (get_model w (with_hf_config cfg hf2) d) = Raises (ValueError msg).
Proof.
  intros w cfg hf1 hf2 d cls H1 H2 msg.
  rewrite (get_model_resolved w (with_hf_config cfg hf1) d cls H1).
  rewrite (get_model_resolved w (with_hf_config cfg hf2) d cls H2).
  split; intros H; apply get_model_from_value_error;
    apply get_model_from_value_error in H; exact H.
Qed.

(** Llama under its two names, with a scheme the accelerator is too old
    for. *)
Lemma get_model_alias_same_verdict_witness :
  result (get_model (calm_world (7, 5)%Z)
            (with_hf_config
               (sample_config [] "auto" float16 (Some "awq"))
               (sample_hf_config ["LlamaForCausalLM"])) float32)
  = Raises (ValueError (capability_message "awq" 80 75))
  /\
  result (get_model (calm_world (7, 5)%Z)
            (with_hf_config
               (sample_config [] "auto" float16 (Some "awq"))
               (sample_hf_config ["LLaMAForCausalLM"])) float32)
  = Raises (ValueError (capability_message "awq" 80 75)).
Proof.
  split; [reflexivity|].
  apply (proj1 (get_model_alias_same_verdict (calm_world (7, 5)%Z)
                  (sample_config [] "auto" float16 (Some "awq"))
                  (sample_hf_config ["LlamaForCausalLM"])
                  (sample_hf_config ["LLaMAForCausalLM"])
                  float32 LlamaForCausalLM eq_refl eq_refl
                  (capability_message "awq" 80 75))).
  reflexivity.
Defined.

(** X15.  Whatever happens, [get_model] leaves the default dtype at one of
    two values: the one on entry or the configuration's dtype.  So a load
    whose dtype is already the default never changes it. *)
Theorem get_model_dtype_after :
  forall (w : World) (cfg : ModelConfig) (d : torch_dtype),
    dtype_after (get_model w cfg d) = d \/
    dtype_after (get_model w cfg d) = dtype cfg.
Proof.
  intros w cfg d.
  destruct (result (_get_model_architecture (hf_config cfg) d))
    as [cls|e] eqn:Hres.
  2:{ left. now rewrite (get_model_unresolved _ _ _ _ Hres). }
  rewrite (get_model_resolved _ _ _ _ Hres).
  destruct (get_model_from_run w cfg cls d)
    as [[_ [_ Heq]]|[_ [[e [He Heq]]|[quant_config [Hqc Heq]]]]];
    rewrite Heq; cbn [dtype_after]; try (now left).
  destruct (get_model_create_run w cfg cls quant_config d) as [rest [_ [_ Hr]]].
  destruct (result (get_model_create w cfg cls quant_config d)) as [m|[?|?|?]];
    [left; apply Hr|contradiction|contradiction|right; exact Hr].
Qed.

(** X16.  Every model class can be asked for by its own name: a candidate
    list holding just the name of a class resolves to that class. *)
Theorem get_model_architecture_own_name :
  forall (cls : model_class) (d : torch_dtype),
    _get_model_architecture {| architectures := Has [class_name cls] |} d
    = Run (Returns cls) d [].
Proof. intros cls d. destruct cls; reflexivity. Qed.
